(** * Merge-upsert of a catalog table: awswrangler/s3/_merge_upsert_table.py

    A shallow embedding of the three functions of the module,
    [_update_existing_table], [_is_data_quality_sufficient] and
    [merge_upsert_table], over a model of the pandas operations they
    call and of the catalog / reader / writer services of the [wr]
    package, followed by the properties of the quality gate, of the
    merge and of the orchestration. *)

From Stdlib Require Import List String Ascii ZArith Bool Arith Lia Permutation.
Import ListNotations.
Local Open Scope string_scope.
Local Open Scope nat_scope.
Local Open Scope list_scope.

Set Implicit Arguments.

(** ** Cells, rows and frames *)

(** The dtype of a column.  [Object] columns hold Python objects. *)
Inductive DType : Type := Int64 | UInt64 | Float64 | Object.

Definition DType_eq_dec (a b : DType) : {a = b} + {a <> b}.
Proof. decide equality. Defined.

(** A cell of a frame, read through the dtype of its column.
    [VInt z] is the number [z]: the integer [z] in an [Int64] or
    [UInt64] column, the float [z.0] in a [Float64] column, either of
    them in an [Object] column, where Python holds them equal.
    [VFrac m k] is the float [m / 2^k] with [m] odd, [VInf] an
    infinity.  [VNaN] is the missing value (NaN, None): the one pandas
    fills in when a frame is aligned on a label it does not have. *)
Inductive Value : Type :=
| VInt (z : Z)
| VFrac (m : Z) (k : positive)
| VInf (negative : bool)
| VStr (s : string)
| VNaN.

Definition Value_eq_dec (a b : Value) : {a = b} + {a <> b}.
Proof.
  decide equality;
    [apply Z.eq_dec | apply Pos.eq_dec | apply Z.eq_dec | apply bool_dec
     | apply string_dec].
Defined.

(** A row holds one cell per column, in column order.  An index label
    is the tuple of the key cells of a row ([set_index]) or a position
    ([reset_index]). *)
Definition Row := list Value.
Definition Label := list Value.

Definition Row_eq_dec : forall a b : Row, {a = b} + {a <> b} :=
  list_eq_dec Value_eq_dec.

(** An index: its labels, and the dtype of each of its levels. *)
Record Index : Type := mkIndex {
  level_dtypes : list DType;
  labels : list Label
}.

Record DataFrame : Type := mkDataFrame {
  columns : list string;
  dtypes : list DType;
  index : Index;
  values : list Row
}.

(** Exceptions the modelled code can raise. *)
Inductive Exception : Type :=
| KeyError (missing : list string)
| ValueError_no_levels
| ValueError_duplicate_keys (dups : list Label)
| ServiceError (msg : string).

Definition Result (A : Type) : Type := (Exception + A)%type.

(** ** The pandas operations used by the module

    The operations are those of frames whose column labels are
    distinct, the frames of the data model; pandas refuses to align an
    axis that repeats a label. *)

Module pandas.

Definition mem_label (l : Label) (ls : list Label) : bool :=
  if in_dec Row_eq_dec l ls then true else false.

Definition mem_column (c : string) (cs : list string) : bool :=
  if in_dec string_dec c cs then true else false.

(** [df[c]] at one row; a label the row does not have reads as NaN,
    which is what re-indexing on a new label produces. *)
Fixpoint cell (cols : list string) (r : Row) (c : string) : Value :=
  match cols, r with
  | c' :: cols', v :: r' => if string_dec c' c then v else cell cols' r' c
  | _, _ => VNaN
  end.

(** A row re-indexed on the labels [new_cols]. *)
Definition reindex_row (cols new_cols : list string) (r : Row) : Row :=
  map (cell cols r) new_cols.

(** The dtype under a label; a column of NaN made for an absent label
    is [Float64]. *)
Fixpoint dtype_of (cols : list string) (ts : list DType) (c : string) : DType :=
  match cols, ts with
  | c' :: cols', t :: ts' => if string_dec c' c then t else dtype_of cols' ts' c
  | _, _ => Float64
  end.

(** [df.dtypes[c]] *)
Definition column_dtype (df : DataFrame) (c : string) : DType :=
  dtype_of (columns df) (dtypes df) c.

(** The integer nearest to [z] that a float64 holds: 53 significant
    bits, ties to the even significand. *)
Definition round_float64 (z : Z) : Z :=
  let a := Z.abs z in
  let bits := (Z.log2 a + 1)%Z in
  if (bits <=? 53)%Z then z
  else
    let shift := (bits - 53)%Z in
    let q := Z.shiftr a shift in
    let r := (a - Z.shiftl q shift)%Z in
    let half := Z.shiftl 1 (shift - 1) in
    let q' := if (half <? r)%Z || ((r =? half)%Z && Z.odd q)
              then (q + 1)%Z else q in
    (Z.sgn z * Z.shiftl q' shift)%Z.

(** A cell of an integer column converted to float64. *)
Definition to_float64 (v : Value) : Value :=
  match v with
  | VInt z => VInt (round_float64 z)
  | _ => v
  end.

Definition numeric (t : DType) : bool :=
  match t with Object => false | _ => true end.

(** The common dtype of two columns put together: their own when they
    agree, float64 for two different numeric dtypes, object otherwise. *)
Definition promote (a b : DType) : DType :=
  if DType_eq_dec a b then a
  else if numeric a && numeric b then Float64 else Object.

(** The dtype a column takes when it must hold a missing value. *)
Definition hold_na (t : DType) : DType :=
  match t with Int64 | UInt64 => Float64 | _ => t end.

(** A cell of a column of dtype [from] stored in a column of dtype
    [to]: integers stored as float64 are rounded, an object column
    keeps what it is given. *)
Definition cast (from to : DType) (v : Value) : Value :=
  if DType_eq_dec from to then v
  else match to with Float64 => to_float64 v | _ => v end.

(** [df.shape[1]] *)
Definition shape1 (df : DataFrame) : nat := List.length (columns df).

(** [df.empty]: no column or no row. *)
Definition empty (df : DataFrame) : bool :=
  match columns df, values df with
  | [], _ | _, [] => true
  | _, _ => false
  end.

(** [pandas.DataFrame(df, columns=cols)]: the frame re-indexed on
    [cols], same index. *)
Definition DataFrame_columns (df : DataFrame) (cols : list string) : DataFrame :=
  {| columns := cols;
     dtypes := map (column_dtype df) cols;
     index := index df;
     values := map (reindex_row (columns df) cols) (values df) |}.

(** Flags of [duplicated(keep='first')]: a row is flagged when an
    equal row came before it. *)
Fixpoint duplicated_from (seen : list Row) (rows : list Row) : list bool :=
  match rows with
  | [] => []
  | r :: rows' => mem_label r seen :: duplicated_from (r :: seen) rows'
  end.

(** [df.duplicated()]; an empty frame yields an empty series. *)
Definition duplicated (df : DataFrame) : list bool :=
  if empty df then [] else duplicated_from [] (values df).

(** Python's [sum] over a boolean series. *)
Fixpoint sum (bs : list bool) : nat :=
  match bs with
  | [] => 0
  | b :: bs' => (if b then 1 else 0) + sum bs'
  end.

(** [a.intersection(b)] on column indexes: the labels of [a] that
    are labels of [b], in the order of [a]. *)
Definition intersection (a b : list string) : list string :=
  filter (fun c => mem_column c b) a.

(** [index.is_unique] *)
Fixpoint is_unique (ls : list Label) : bool :=
  match ls with
  | [] => true
  | l :: ls' => negb (mem_label l ls') && is_unique ls'
  end.

(** [index.unique()]: each label once, at its first occurrence. *)
Fixpoint unique_from (seen : list Label) (ls : list Label) : list Label :=
  match ls with
  | [] => []
  | l :: ls' =>
      if mem_label l seen then unique_from seen ls'
      else l :: unique_from (l :: seen) ls'
  end.

(** Selection by a boolean mask. *)
Definition select (A : Type) (mask : list bool) (xs : list A) : list A :=
  map snd (filter fst (combine mask xs)).

(** The labels reported by the duplicate-key error:
    [index[index.duplicated()].unique()]. *)
Definition duplicate_labels (ls : list Label) : list Label :=
  unique_from [] (select (duplicated_from [] ls) ls).

(** [df.set_index(keys=keys, drop=False, verify_integrity=True)]:
    the key columns must exist, there must be at least one, and with
    [verify_integrity] the new index must have no repeated label.
    The key columns stay in the frame ([drop=False]); each level of the
    index has the dtype of its key column. *)
Definition set_index (df : DataFrame) (keys : list string) : Result DataFrame :=
  match filter (fun k => negb (mem_column k (columns df))) keys with
  | (_ :: _) as missing => inl (KeyError missing)
  | [] =>
      match keys with
      | [] => inl ValueError_no_levels
      | _ :: _ =>
          let idx := map (reindex_row (columns df) keys) (values df) in
          if is_unique idx
          then inr {| columns := columns df;
                      dtypes := dtypes df;
                      index := {| level_dtypes := map (column_dtype df) keys;
                                  labels := idx |};
                      values := values df |}
          else inl (ValueError_duplicate_keys (duplicate_labels idx))
      end
  end.

(** A label of an index whose levels have the dtypes [own], made
    comparable with the labels of an index of dtypes [other]: where the
    two levels are numeric of different dtypes, both sides are compared
    as float64. *)
Fixpoint common_label (own other : list DType) (l : Label) : Label :=
  match own, other, l with
  | t :: own', u :: other', v :: l' =>
      (if numeric t && numeric u && negb (if DType_eq_dec t u then true else false)
       then to_float64 v else v)
      :: common_label own' other' l'
  | _, _, _ => l
  end.

(** [idx.isin(other)]: one flag per label of [idx]. *)
Definition isin (idx other : Index) : list bool :=
  map (fun l =>
         mem_label (common_label (level_dtypes idx) (level_dtypes other) l)
                   (map (common_label (level_dtypes other) (level_dtypes idx))
                        (labels other)))
      (labels idx).

(** [~mask] *)
Definition invert (mask : list bool) : list bool := map negb mask.

(** [df[mask]] *)
Definition getitem_mask (df : DataFrame) (mask : list bool) : DataFrame :=
  {| columns := columns df;
     dtypes := dtypes df;
     index := {| level_dtypes := level_dtypes (index df);
                 labels := select mask (labels (index df)) |};
     values := select mask (values df) |}.

(** Column labels of a concatenation: those of the frames in order
    of first appearance (outer join, [sort=False]). *)
Fixpoint union_columns (acc : list string) (dfs : list DataFrame) : list string :=
  match dfs with
  | [] => acc
  | df :: dfs' =>
      union_columns
        (acc ++ filter (fun c => negb (mem_column c acc)) (columns df)) dfs'
  end.

(** What a concatenation reads of a frame to settle its dtypes. *)
Definition schema (df : DataFrame) : list string * list DType :=
  (columns df, dtypes df).

(** The dtype of column [c] of a concatenation: the common dtype of
    the frames that have the column, made able to hold a missing value
    when a frame lacks it. *)
Definition joint_dtype (schemas : list (list string * list DType)) (c : string)
    : DType :=
  let present := filter (fun s => mem_column c (fst s)) schemas in
  let t :=
    match present with
    | [] => Float64
    | s :: rest =>
        fold_left (fun t s' => promote t (dtype_of (fst s') (snd s') c)) rest
                  (dtype_of (fst s) (snd s) c)
    end in
  if forallb (fun s => mem_column c (fst s)) schemas then t else hold_na t.

(** A row of [df] laid on the columns [cols] of a concatenation whose
    dtypes are [ts]: each cell is stored in the dtype of its new column,
    an absent one is NaN. *)
Definition align_row (df : DataFrame) (cols : list string) (ts : string -> DType)
    (r : Row) : Row :=
  map (fun c => cast (column_dtype df c) (ts c) (cell (columns df) r c)) cols.

(** Levelwise common dtype of the indexes of a concatenation, and a
    label stored in it. *)
Fixpoint promote_levels (a b : list DType) : list DType :=
  match a, b with
  | t :: a', u :: b' => promote t u :: promote_levels a' b'
  | _, _ => a
  end.

Fixpoint cast_label (from to : list DType) (l : Label) : Label :=
  match from, to, l with
  | t :: from', u :: to', v :: l' => cast t u v :: cast_label from' to' l'
  | _, _, _ => l
  end.

Definition concat_index (idxs : list Index) : Index :=
  let ts :=
    match idxs with
    | [] => []
    | i :: rest => fold_left promote_levels (map level_dtypes rest) (level_dtypes i)
    end in
  {| level_dtypes := ts;
     labels := flat_map (fun i => map (cast_label (level_dtypes i) ts) (labels i))
                        idxs |}.

(** [pandas.concat(dfs)]: rows of the frames one after the other,
    each aligned on the joint columns and stored in their dtypes. *)
Definition concat (dfs : list DataFrame) : DataFrame :=
  let cols := union_columns [] dfs in
  {| columns := cols;
     dtypes := map (joint_dtype (map schema dfs)) cols;
     index := concat_index (map index dfs);
     values :=
       flat_map (fun df => map (align_row df cols (joint_dtype (map schema dfs)))
                               (values df)) dfs |}.

(** [RangeIndex(n)]: the positions 0, 1, ..., n-1. *)
Definition range_index (n : nat) : Index :=
  {| level_dtypes := [Int64];
     labels := map (fun i => [VInt (Z.of_nat i)]) (seq 0 n) |}.

(** [df.reset_index(drop=True)]: the index becomes positional and the
    old one is discarded. *)
Definition reset_index_drop (df : DataFrame) : DataFrame :=
  {| columns := columns df;
     dtypes := dtypes df;
     index := range_index (List.length (values df));
     values := values df |}.

End pandas.

(** ** The quality gate *)

Definition msg_existing_duplicates : string :=
  "Data inside the existing table has duplicates.".

Definition msg_delta_duplicates : string :=
  "Data inside the delta dataframe has duplicates.".

(** Rendering of a column index inside the mismatch message. *)
Definition repr_columns (cols : list string) : string :=
  ("Index([" ++ String.concat ", " (map (fun c => "'" ++ c ++ "'") cols)
   ++ "], dtype='object')")%string.

Definition newline : string := String (ascii_of_nat 10) EmptyString.

Definition msg_column_mismatch (existing_df delta_df : DataFrame) : string :=
  ("Column names or number of columns mismatch! " ++ newline ++
   " Columns in delta_df " ++ repr_columns (columns delta_df) ++ "." ++ newline ++
   "  Columns in existing_df is " ++ repr_columns (columns existing_df) ++ " ")%string.

(** The local list [error_messages] when the function reaches its
    [return]: each check appends to it in turn. *)
Definition error_messages (existing_df delta_df : DataFrame)
    (primary_key : list string) : list string :=
  let error_messages := [] in
  let error_messages :=
    if negb (pandas.sum (pandas.duplicated
               (pandas.DataFrame_columns existing_df primary_key)) =? 0)
    then error_messages ++ [msg_existing_duplicates]
    else error_messages in
  let error_messages :=
    if negb (pandas.sum (pandas.duplicated
               (pandas.DataFrame_columns delta_df primary_key)) =? 0)
    then error_messages ++ [msg_delta_duplicates]
    else error_messages in
  let error_messages :=
    if negb (pandas.shape1 existing_df =? pandas.shape1 delta_df)
       || negb (List.length (pandas.intersection (columns existing_df) (columns delta_df))
                =? pandas.shape1 existing_df)
    then error_messages ++ [msg_column_mismatch existing_df delta_df]
    else error_messages in
  error_messages.

Definition _is_data_quality_sufficient (existing_df delta_df : DataFrame)
    (primary_key : list string) : bool :=
  List.length (error_messages existing_df delta_df primary_key) =? 0.

(** ** The merge *)

(** The local [merged_df] of [_update_existing_table] after its
    [reset_index], or the exception a [set_index] raised. *)
Definition merged_df (existing_df delta_df : DataFrame)
    (primary_key : list string) : Result DataFrame :=
  match pandas.set_index existing_df primary_key with
  | inl e => inl e
  | inr existing_df =>
      match pandas.set_index delta_df primary_key with
      | inl e => inl e
      | inr delta_df =>
          let merged_df :=
            pandas.concat
              [pandas.getitem_mask existing_df
                 (pandas.invert (pandas.isin (index existing_df) (index delta_df)));
               delta_df] in
          let merged_df := pandas.reset_index_drop merged_df in
          inr merged_df
      end
  end.

(** ** Scenario of the specification *)

Module Scenario.
Definition frame (cols : list string) (ts : list DType) (rows : list Row)
    : DataFrame :=
  {| columns := cols;
     dtypes := ts;
     index := pandas.range_index (List.length rows);
     values := rows |}.

Definition existing : DataFrame :=
  frame ["id"; "v"] [Int64; Object] [[VInt 1; VStr "a"]; [VInt 2; VStr "b"]].
Definition delta : DataFrame :=
  frame ["id"; "v"] [Int64; Object] [[VInt 2; VStr "B"]; [VInt 3; VStr "c"]].
(** the delta batch with its columns in the other order *)
Definition delta_swapped : DataFrame :=
  frame ["v"; "id"] [Object; Int64] [[VStr "B"; VInt 2]; [VStr "c"; VInt 3]].
Definition existing_dup : DataFrame :=
  frame ["id"; "v"] [Int64; Object] [[VInt 1; VStr "a"]; [VInt 1; VStr "b"]].
Definition delta_new : DataFrame :=
  frame ["id"; "v"] [Int64; Object] [[VInt 2; VStr "c"]].
Definition delta_extra : DataFrame :=
  frame ["id"; "v"; "extra"] [Int64; Object; Float64] [[VInt 2; VStr "c"; VNaN]].
(** further batches: no row, new keys only, every existing key *)
Definition delta_empty : DataFrame := frame ["v"; "id"] [Object; Int64] [].
Definition delta_fresh : DataFrame :=
  frame ["v"; "id"] [Object; Int64] [[VStr "c"; VInt 3]; [VStr "d"; VInt 4]].
Definition delta_all : DataFrame :=
  frame ["id"; "v"] [Int64; Object]
        [[VInt 2; VStr "B"]; [VInt 1; VStr "A"]; [VInt 3; VStr "c"]].
(** a table of one row *)
Definition existing_one : DataFrame :=
  frame ["id"; "v"] [Int64; Object] [[VInt 1; VStr "a"]].

(** Frames whose columns differ in dtype.  An integer column met by a
    float64 column of the delta: *)
Definition big_existing : DataFrame :=
  frame ["id"; "v"] [Int64; Int64] [[VInt 1; VInt 9007199254740993]].
Definition nan_delta : DataFrame :=
  frame ["id"; "v"] [Int64; Float64] [[VInt 2; VNaN]].
(** a signed key column met by an unsigned one: *)
Definition wide_existing : DataFrame :=
  frame ["id"] [Int64] [[VInt 9007199254740993]].
Definition unsigned_delta : DataFrame :=
  frame ["id"] [UInt64] [[VInt 9007199254740992]].
End Scenario.

(** ** Services, world and effects *)

Inductive Level : Type := INFO | ERROR.

(** What the module does to the outside: calls of the [wr] services
    and records handed to the module logger. *)
Inductive Event : Type :=
| Call_does_table_exist (database table : string)
| Call_read_parquet_table (database table : string)
| Call_get_table_location (database table : string)
| Call_to_parquet (df : DataFrame) (path : string) (dataset : bool)
                  (database table mode : string)
| Log (level : Level) (msg : string).

(** The services of the [wr] package the module calls.  [Durable] is
    the catalog and the storage behind it; [Outside] is whatever else
    decides an answer (other clients, the network).  The three lookups
    read the durable state and leave it alone; only the writer returns
    a new one.  Each may raise. *)
Record Services (Durable Outside Response : Type) : Type := mkServices {
  does_table_exist :
    string -> string -> Durable -> Outside -> Result bool * Outside;
  read_parquet_table :
    string -> string -> Durable -> Outside -> Result DataFrame * Outside;
  get_table_location :
    string -> string -> Durable -> Outside -> Result string * Outside;
  to_parquet :
    DataFrame -> string -> bool -> string -> string -> string ->
    Durable -> Outside -> Result Response * Durable * Outside;
  str : Response -> string
}.

Record World (Durable Outside : Type) : Type := mkWorld {
  durable : Durable;
  outside : Outside;
  trace : list Event
}.

Section Effects.
Context {Durable Outside Response : Type}.
Variable wr : Services Durable Outside Response.

(** State of the world threaded through the calls, with exceptions. *)
Definition M (A : Type) : Type :=
  World Durable Outside -> Result A * World Durable Outside.

Definition ret {A : Type} (a : A) : M A := fun w => (inr a, w).

Definition bind {A B : Type} (m : M A) (k : A -> M B) : M B :=
  fun w =>
    match m w with
    | (inl e, w') => (inl e, w')
    | (inr a, w') => k a w'
    end.

Definition lift {A : Type} (r : Result A) : M A := fun w => (r, w).

Definition emit (ev : Event) : M unit :=
  fun w =>
    (inr tt,
     {| durable := durable w; outside := outside w; trace := trace w ++ [ev] |}).

Definition lookup {A : Type} (ev : Event)
    (f : Durable -> Outside -> Result A * Outside) : M A :=
  fun w =>
    let '(r, o) := f (durable w) (outside w) in
    (r, {| durable := durable w; outside := o; trace := trace w ++ [ev] |}).

Definition catalog_does_table_exist (database table : string) : M bool :=
  lookup (Call_does_table_exist database table)
         (does_table_exist wr database table).

Definition s3_read_parquet_table (database table : string) : M DataFrame :=
  lookup (Call_read_parquet_table database table)
         (read_parquet_table wr database table).

Definition catalog_get_table_location (database table : string) : M string :=
  lookup (Call_get_table_location database table)
         (get_table_location wr database table).

Definition s3_to_parquet (df : DataFrame) (path : string) (dataset : bool)
    (database table mode : string) : M Response :=
  fun w =>
    let '(r, d, o) :=
      to_parquet wr df path dataset database table mode (durable w) (outside w) in
    (r, {| durable := d; outside := o;
           trace := trace w ++ [Call_to_parquet df path dataset database table mode] |}).

Definition logger_info (msg : string) : M unit := emit (Log INFO msg).

(** [_logger.exception] logs at level ERROR. *)
Definition logger_exception (msg : string) : M unit := emit (Log ERROR msg).

Notation "x <- m ;; k" := (bind m (fun x => k))
  (at level 61, m at next level, right associativity).

Definition msg_upserted (database table : string) (response : Response) : string :=
  ("Successfully Upserted " ++ database ++ "." ++ table
   ++ " and got response as " ++ str wr response)%string.

Definition msg_not_found (database table : string) : string :=
  ("database_name.table_name= " ++ database ++ "." ++ table
   ++ " does not exist ")%string.

Definition msg_unknown_state : string := "Reached a unknown logical state".

Definition _update_existing_table (existing_df delta_df : DataFrame)
    (primary_key : list string) (database table : string) : M unit :=
  merged_df <- lift (merged_df existing_df delta_df primary_key) ;;
  path <- catalog_get_table_location database table ;;
  response <- s3_to_parquet merged_df path true database table "overwrite" ;;
  logger_info (msg_upserted database table response).

Definition merge_upsert_table (delta_df : DataFrame) (database table : string)
    (primary_key : list string) : M unit :=
  found <- catalog_does_table_exist database table ;;
  if found then
    existing_df <- s3_read_parquet_table database table ;;
    if _is_data_quality_sufficient existing_df delta_df primary_key then
      _update_existing_table existing_df delta_df primary_key database table
    else ret tt
  else
    found_again <- catalog_does_table_exist database table ;;
    if negb found_again then
      logger_exception (msg_not_found database table)
    else
      logger_exception msg_unknown_state.

End Effects.

(** ** A catalog and store to run the module against *)

Module Fake.

(** One entry per registered table: database, table, location and
    content. *)
Definition Durable : Type := list (string * string * (string * DataFrame)).

(** Answers the catalog gives to the next existence queries whatever
    the store holds; once used up, the store decides. *)
Definition Outside : Type := list bool.

Definition same_table (database table : string)
    (entry : string * string * (string * DataFrame)) : bool :=
  let '(d, t, _) := entry in
  (if string_dec d database then true else false)
  && (if string_dec t table then true else false).

Definition find_table (database table : string) (d : Durable)
    : option (string * DataFrame) :=
  option_map snd (find (same_table database table) d).

Definition wr : Services Durable Outside nat :=
  {| does_table_exist := fun database table d o =>
       match o with
       | b :: o' => (inr b, o')
       | [] => (inr (match find_table database table d with
                     | Some _ => true
                     | None => false
                     end), [])
       end;
     read_parquet_table := fun database table d o =>
       match find_table database table d with
       | Some (_, df) => (inr df, o)
       | None => (inl (ServiceError "NoFilesFound"), o)
       end;
     get_table_location := fun database table d o =>
       match find_table database table d with
       | Some (path, _) => (inr path, o)
       | None => (inl (ServiceError "InvalidTable"), o)
       end;
     to_parquet := fun df path dataset database table mode d o =>
       (inr (List.length (values df)),
        (database, table, (path, df))
          :: filter (fun e => negb (same_table database table e)) d,
        o);
     str := fun n => String.concat EmptyString (repeat "r" n) |}.

Definition store (df : DataFrame) : Durable := [("db", "t", ("s3://bucket/t", df))].

Definition world (d : Durable) (o : Outside) : World Durable Outside :=
  {| durable := d; outside := o; trace := [] |}.

(** The same services with one of them out of order. *)
Definition wr_catalog_down : Services Durable Outside nat :=
  {| does_table_exist := fun _ _ _ o => (inl (ServiceError "EndpointConnectionError"), o);
     read_parquet_table := read_parquet_table wr;
     get_table_location := get_table_location wr;
     to_parquet := to_parquet wr;
     str := str wr |}.

Definition wr_location_down : Services Durable Outside nat :=
  {| does_table_exist := does_table_exist wr;
     read_parquet_table := read_parquet_table wr;
     get_table_location := fun _ _ _ o => (inl (ServiceError "AccessDenied"), o);
     to_parquet := to_parquet wr;
     str := str wr |}.

(** A writer that fails after it has removed the old content. *)
Definition wr_writer_down : Services Durable Outside nat :=
  {| does_table_exist := does_table_exist wr;
     read_parquet_table := read_parquet_table wr;
     get_table_location := get_table_location wr;
     to_parquet := fun _ _ _ database table _ d o =>
       (inl (ServiceError "SlowDown"),
        filter (fun e => negb (same_table database table e)) d, o);
     str := str wr |}.

End Fake.

(** ** Vocabulary of the properties *)

(** The primary-key tuple of a row of [df]. *)
Definition key_tuple (df : DataFrame) (primary_key : list string) (r : Row) : Label :=
  map (pandas.cell (columns df) r) primary_key.

Definition key_tuples (df : DataFrame) (primary_key : list string) : list Label :=
  map (key_tuple df primary_key) (values df).

(** The rows of [df] whose primary-key tuple is [k]. *)
Definition rows_with_key (df : DataFrame) (primary_key : list string) (k : Label)
    : list Row :=
  filter (fun r => if Row_eq_dec (key_tuple df primary_key r) k then true else false)
         (values df).

(** Two rows, each read through the columns of its own frame, hold the
    same cell under every column name. *)
Definition same_cells (df1 : DataFrame) (r1 : Row) (df2 : DataFrame) (r2 : Row) : Prop :=
  forall c, pandas.cell (columns df1) r1 c = pandas.cell (columns df2) r2 c.

Definition same_column_set (df1 df2 : DataFrame) : Prop :=
  List.length (columns df1) = List.length (columns df2)
  /\ forall c, In c (columns df1) <-> In c (columns df2).

(** A frame of the data model: column names are distinct and every row
    has one cell per column. *)
Definition well_formed (df : DataFrame) : Prop :=
  NoDup (columns df)
  /\ Forall (fun r : Row => List.length r = List.length (columns df)) (values df).

Fixpoint distinct (cs : list string) : bool :=
  match cs with
  | [] => true
  | c :: cs' => negb (pandas.mem_column c cs') && distinct cs'
  end.

Definition well_formedb (df : DataFrame) : bool :=
  distinct (columns df)
  && forallb (fun r : Row => List.length r =? List.length (columns df)) (values df).

(** Every column of [df1] has the same dtype in [df2]. *)
Definition same_dtypes (df1 df2 : DataFrame) : Prop :=
  forall c, In c (columns df1) ->
            pandas.column_dtype df1 c = pandas.column_dtype df2 c.

Definition same_dtypesb (df1 df2 : DataFrame) : bool :=
  forallb (fun c => if DType_eq_dec (pandas.column_dtype df1 c)
                                    (pandas.column_dtype df2 c)
                    then true else false)
          (columns df1).

(** The dtypes of the key columns of [df]. *)
Definition key_dtypes (df : DataFrame) (primary_key : list string) : list DType :=
  map (pandas.column_dtype df) primary_key.

(** The rows of [existing_df] whose key is not a key of [delta_df]. *)
Definition kept_rows (existing_df delta_df : DataFrame) (primary_key : list string)
    : list Row :=
  filter (fun r => negb (pandas.mem_label (key_tuple existing_df primary_key r)
                                          (key_tuples delta_df primary_key)))
         (values existing_df).

(** The rows of [existing_df] whose key [isin] does not find among the
    keys of [delta_df], the keys being compared in the dtypes of the key
    columns of the two frames. *)
Definition unmatched_rows (existing_df delta_df : DataFrame)
    (primary_key : list string) : list Row :=
  filter (fun r =>
            negb (pandas.mem_label
                    (pandas.common_label (key_dtypes existing_df primary_key)
                                         (key_dtypes delta_df primary_key)
                                         (key_tuple existing_df primary_key r))
                    (map (pandas.common_label (key_dtypes delta_df primary_key)
                                              (key_dtypes existing_df primary_key))
                         (key_tuples delta_df primary_key))))
         (values existing_df).

(** The key-based override: the kept rows of [existing_df], then every
    row of [delta_df] aligned on the columns of [existing_df], in the
    dtypes of [existing_df], under a fresh positional index. *)
Definition override (existing_df delta_df : DataFrame) (primary_key : list string)
    : DataFrame :=
  let rows :=
    kept_rows existing_df delta_df primary_key
    ++ map (pandas.reindex_row (columns delta_df) (columns existing_df))
           (values delta_df) in
  {| columns := columns existing_df;
     dtypes := map (pandas.column_dtype existing_df) (columns existing_df);
     index := pandas.range_index (List.length rows);
     values := rows |}.

(** Kinds of events. *)
Definition is_read (ev : Event) : bool :=
  match ev with Call_read_parquet_table _ _ => true | _ => false end.

Definition is_location_lookup (ev : Event) : bool :=
  match ev with Call_get_table_location _ _ => true | _ => false end.

Definition is_write (ev : Event) : bool :=
  match ev with Call_to_parquet _ _ _ _ _ _ => true | _ => false end.

Definition is_log (ev : Event) : bool :=
  match ev with Log _ _ => true | _ => false end.

(** Columns of the two frames side by side: those of [existing_df],
    then those only [delta_df] has. *)
Definition joint_columns (existing_df delta_df : DataFrame) : list string :=
  columns existing_df
  ++ filter (fun c => negb (pandas.mem_column c (columns existing_df)))
            (columns delta_df).

(** The frame the merge builds from two frames it could index: the
    unmatched rows of [existing_df], then the rows of [delta_df], each
    laid on the joint columns in their common dtypes. *)
Definition joint_frame (existing_df delta_df : DataFrame) (primary_key : list string)
    : DataFrame :=
  let cols := joint_columns existing_df delta_df in
  let ts := pandas.joint_dtype [pandas.schema existing_df; pandas.schema delta_df] in
  let rows :=
    map (pandas.align_row existing_df cols ts)
        (unmatched_rows existing_df delta_df primary_key)
    ++ map (pandas.align_row delta_df cols ts) (values delta_df) in
  {| columns := cols;
     dtypes := map ts cols;
     index := pandas.range_index (List.length rows);
     values := rows |}.

(** The key columns [existing_df] or [delta_df] lacks, as [set_index]
    reports them. *)
Definition missing_keys (df : DataFrame) (primary_key : list string) : list string :=
  filter (fun k => negb (pandas.mem_column k (columns df))) primary_key.

Unset Implicit Arguments.

(** Closing side conditions on concrete frames. *)
Ltac columns_present := intros c H; simpl in H; simpl; tauto.

(** ** Lists *)

Section ListFacts.
Variable A : Type.
Implicit Types (l : list A) (f : A -> bool).

Lemma filter_length_all f l :
  List.length (filter f l) = List.length l <-> forall x, In x l -> f x = true.
Proof.
  induction l as [|a l IH]; simpl.
  - split; [intros _ x []|reflexivity].
  - pose proof (filter_length_le f l) as Hle.
    destruct (f a) eqn:Fa; simpl.
    + split.
      * intros H x [<-|Hx]; [assumption|]. apply IH; [lia|assumption].
      * intros H. f_equal. apply IH. intros x Hx. apply H. now right.
    + split; [lia|]. intros H. specialize (H a (or_introl eq_refl)). congruence.
Qed.

Lemma filter_all_true f l :
  (forall x, In x l -> f x = true) -> filter f l = l.
Proof.
  induction l as [|a l IH]; simpl; intros H; [reflexivity|].
  rewrite (H a (or_introl eq_refl)). f_equal. apply IH. intros x Hx. apply H. now right.
Qed.

Lemma filter_all_false f l :
  (forall x, In x l -> f x = false) -> filter f l = [].
Proof.
  induction l as [|a l IH]; simpl; intros H; [reflexivity|].
  rewrite (H a (or_introl eq_refl)). apply IH. intros x Hx. apply H. now right.
Qed.

Lemma select_map_flags f l :
  pandas.select (map f l) l = filter f l.
Proof.
  unfold pandas.select. induction l as [|a l IH]; simpl; [reflexivity|].
  destruct (f a); simpl; now rewrite IH.
Qed.
End ListFacts.

(** ** Facts on the pandas operations *)

Lemma mem_label_In l ls : pandas.mem_label l ls = true <-> In l ls.
Proof. unfold pandas.mem_label. destruct (in_dec Row_eq_dec l ls); split; auto; discriminate. Qed.

Lemma mem_label_not_In l ls : pandas.mem_label l ls = false <-> ~ In l ls.
Proof. unfold pandas.mem_label. destruct (in_dec Row_eq_dec l ls); split; auto; try discriminate. intros H; contradiction. Qed.

Lemma mem_column_In c cs : pandas.mem_column c cs = true <-> In c cs.
Proof. unfold pandas.mem_column. destruct (in_dec string_dec c cs); split; auto; discriminate. Qed.

Lemma mem_column_not_In c cs : pandas.mem_column c cs = false <-> ~ In c cs.
Proof. unfold pandas.mem_column. destruct (in_dec string_dec c cs); split; auto; try discriminate. intros H; contradiction. Qed.

Lemma sum_duplicated_from rows : forall seen,
  pandas.sum (pandas.duplicated_from seen rows) = 0
  <-> NoDup rows /\ forall r, In r rows -> ~ In r seen.
Proof.
  induction rows as [|r rows IH]; intros seen; simpl.
  - split; [intros _; split; [constructor|intros ? []]|reflexivity].
  - destruct (pandas.mem_label r seen) eqn:E.
    + apply mem_label_In in E. split; [discriminate|].
      intros [_ H]. exfalso. apply (H r); auto.
    + apply mem_label_not_In in E. simpl. rewrite IH. split.
      * intros [ND H]. split.
        -- constructor; [|assumption]. intros Hin. apply (H r Hin). now left.
        -- intros r' [<-|Hr'] Hs; [auto|]. apply (H r' Hr'). now right.
      * intros [ND H]. inversion ND as [|? ? Hnin ND']; subst. split; [assumption|].
        intros r' Hr' [<-|Hs]; [auto|]. apply (H r'); auto.
  Qed.

Lemma is_unique_NoDup ls : pandas.is_unique ls = true <-> NoDup ls.
Proof.
  induction ls as [|l ls IH]; simpl.
  - split; [constructor|reflexivity].
  - rewrite andb_true_iff, negb_true_iff, mem_label_not_In, IH. split.
    + intros [? ?]. now constructor.
    + intros H. inversion H; auto.
Qed.

(** The duplicate check of the gate on a non-empty key: no flag is
    raised exactly when the primary-key tuples are pairwise distinct. *)
Lemma sum_duplicated_key_tuples df primary_key :
  primary_key <> [] ->
  pandas.sum (pandas.duplicated (pandas.DataFrame_columns df primary_key)) = 0
  <-> NoDup (key_tuples df primary_key).
Proof.
  intros Hpk. unfold pandas.duplicated, pandas.empty, key_tuples. simpl.
  destruct primary_key as [|k ks]; [contradiction|].
  destruct (values df) as [|r rs] eqn:Ev.
  - simpl. split; [constructor|reflexivity].
  - cbn [map]. rewrite sum_duplicated_from. split.
    + intros [H _]. exact H.
    + intros H. split; [exact H|intros ? _ []].
Qed.

Lemma column_check existing_df delta_df :
  NoDup (columns existing_df) -> NoDup (columns delta_df) ->
  negb (pandas.shape1 existing_df =? pandas.shape1 delta_df)
  || negb (List.length (pandas.intersection (columns existing_df) (columns delta_df))
           =? pandas.shape1 existing_df) = false
  <-> same_column_set existing_df delta_df.
Proof.
  intros NDe NDd. unfold pandas.shape1, pandas.intersection, same_column_set.
  rewrite orb_false_iff, !negb_false_iff, !Nat.eqb_eq, filter_length_all.
  split.
  - intros [Hlen Hall]. split; [assumption|].
    assert (incl (columns existing_df) (columns delta_df)) as Hincl
      by (intros c Hc; apply mem_column_In; auto).
    intros c. split; [apply Hincl|].
    apply (NoDup_length_incl NDe); [lia|assumption].
  - intros [Hlen Hset]. split; [assumption|].
    intros c Hc. apply mem_column_In, Hset, Hc.
Qed.

Lemma distinct_NoDup cs : distinct cs = true <-> NoDup cs.
Proof.
  induction cs as [|c cs IH]; simpl.
  - split; [constructor|reflexivity].
  - rewrite andb_true_iff, negb_true_iff, mem_column_not_In, IH. split.
    + intros [? ?]. now constructor.
    + intros H. inversion H; auto.
Qed.

Lemma well_formedb_sound df : well_formedb df = true -> well_formed df.
Proof.
  unfold well_formedb, well_formed. rewrite andb_true_iff, distinct_NoDup.
  intros [ND H]. split; [assumption|].
  apply Forall_forall. intros r Hr. apply Nat.eqb_eq.
  rewrite forallb_forall in H. now apply H.
Qed.

Ltac frame_ok := apply well_formedb_sound; reflexivity.

Lemma cell_absent cols : forall r c, ~ In c cols -> pandas.cell cols r c = VNaN.
Proof.
  induction cols as [|c' cols IH]; intros [|v r] c Hc; simpl; try reflexivity.
  destruct (string_dec c' c) as [->|_].
  - exfalso. apply Hc. now left.
  - apply IH. intros H. apply Hc. now right.
Qed.

(** Reading a re-indexed row under one of its new labels reads the
    original row. *)
Lemma cell_reindex_row cols r new_cols c :
  In c new_cols ->
  pandas.cell new_cols (pandas.reindex_row cols new_cols r) c = pandas.cell cols r c.
Proof.
  unfold pandas.reindex_row.
  induction new_cols as [|c0 new_cols IH]; simpl; [intros []|].
  intros H. destruct (string_dec c0 c) as [->|Hne]; [reflexivity|].
  destruct H as [->|H]; [contradiction|]. now apply IH.
Qed.

Lemma reindex_row_same cols : forall r,
  NoDup cols -> List.length r = List.length cols -> pandas.reindex_row cols cols r = r.
Proof.
  unfold pandas.reindex_row.
  induction cols as [|c cols IH]; intros [|v r] ND Hlen; simpl in *; try discriminate;
    [reflexivity|].
  inversion ND as [|? ? Hnin ND']; subst.
  destruct (string_dec c c) as [_|Hne]; [|contradiction]. f_equal.
  transitivity (map (pandas.cell cols r) cols); [|apply IH; [assumption|lia]].
  apply map_ext_in. intros c' Hc'.
  destruct (string_dec c c') as [->|_]; [contradiction|reflexivity].
Qed.

Lemma key_tuple_reindex_row cols new_cols primary_key r :
  incl primary_key new_cols ->
  map (pandas.cell new_cols (pandas.reindex_row cols new_cols r)) primary_key
  = map (pandas.cell cols r) primary_key.
Proof.
  intros Hincl. apply map_ext_in. intros c Hc. apply cell_reindex_row, Hincl, Hc.
Qed.

Lemma set_index_unique df primary_key :
  primary_key <> [] -> incl primary_key (columns df) ->
  NoDup (key_tuples df primary_key) ->
  pandas.set_index df primary_key
  = inr {| columns := columns df;
           dtypes := dtypes df;
           index := {| level_dtypes := key_dtypes df primary_key;
                       labels := key_tuples df primary_key |};
           values := values df |}.
Proof.
  intros Hne Hincl ND. unfold pandas.set_index.
  rewrite filter_all_false.
  2:{ intros k Hk. apply negb_false_iff, mem_column_In, Hincl, Hk. }
  destruct primary_key as [|k ks]; [contradiction|].
  change (map (pandas.reindex_row (columns df) (k :: ks)) (values df))
    with (key_tuples df (k :: ks)).
  apply is_unique_NoDup in ND. now rewrite ND.
Qed.

Lemma filter_absent_columns acc cols :
  incl cols acc -> filter (fun c => negb (pandas.mem_column c acc)) cols = [].
Proof.
  intros H. apply filter_all_false. intros c Hc.
  apply negb_false_iff, mem_column_In, H, Hc.
Qed.

(** ** Dtypes *)

Lemma common_label_same ts : forall l, pandas.common_label ts ts l = l.
Proof.
  induction ts as [|t ts IH]; intros [|v l]; simpl; try reflexivity.
  destruct (DType_eq_dec t t) as [_|Hne]; [|contradiction].
  rewrite andb_false_r. f_equal. apply IH.
Qed.

Lemma cast_same t v : pandas.cast t t v = v.
Proof. unfold pandas.cast. destruct (DType_eq_dec t t); [reflexivity|contradiction]. Qed.

Lemma promote_same t : pandas.promote t t = t.
Proof.
  unfold pandas.promote. destruct (DType_eq_dec t t); [reflexivity|contradiction].
Qed.

Lemma dtype_of_map cols (f : string -> DType) c :
  In c cols -> pandas.dtype_of cols (map f cols) c = f c.
Proof.
  induction cols as [|c' cols IH]; simpl; [intros []|].
  intros H. destruct (string_dec c' c) as [->|Hne]; [reflexivity|].
  destruct H as [->|H]; [contradiction|]. now apply IH.
Qed.

Lemma dtype_of_absent cols : forall ts c,
  ~ In c cols -> pandas.dtype_of cols ts c = Float64.
Proof.
  induction cols as [|c' cols IH]; intros [|t ts] c Hc; simpl; try reflexivity.
  destruct (string_dec c' c) as [->|_].
  - exfalso. apply Hc. now left.
  - apply IH. intros H. apply Hc. now right.
Qed.

(** The dtypes of two frames with the same labels put together. *)
Lemma joint_dtype_both existing_df delta_df c :
  In c (columns existing_df) -> In c (columns delta_df) ->
  pandas.joint_dtype [pandas.schema existing_df; pandas.schema delta_df] c
  = pandas.promote (pandas.column_dtype existing_df c)
                   (pandas.column_dtype delta_df c).
Proof.
  intros He Hd. unfold pandas.joint_dtype, pandas.schema. cbn [filter forallb fst snd].
  apply mem_column_In in He. apply mem_column_In in Hd.
  now rewrite He, Hd.
Qed.

(** Masking the existing frame with [~index.isin(delta index)] keeps
    the rows [isin] does not match. *)
Lemma select_not_isin existing_df delta_df primary_key :
  pandas.select
    (pandas.invert
       (pandas.isin {| level_dtypes := key_dtypes existing_df primary_key;
                       labels := key_tuples existing_df primary_key |}
                    {| level_dtypes := key_dtypes delta_df primary_key;
                       labels := key_tuples delta_df primary_key |}))
    (values existing_df)
  = unmatched_rows existing_df delta_df primary_key.
Proof.
  unfold pandas.invert, pandas.isin, unmatched_rows. cbn [level_dtypes labels].
  change (key_tuples existing_df primary_key)
    with (map (key_tuple existing_df primary_key) (values existing_df)).
  rewrite !map_map. apply select_map_flags.
Qed.

(** With key columns of the same dtypes the match is equality of keys. *)
Lemma unmatched_rows_same_dtypes existing_df delta_df primary_key :
  key_dtypes existing_df primary_key = key_dtypes delta_df primary_key ->
  unmatched_rows existing_df delta_df primary_key
  = kept_rows existing_df delta_df primary_key.
Proof.
  intros H. unfold unmatched_rows, kept_rows. rewrite H.
  apply filter_ext. intros r. rewrite common_label_same.
  rewrite (map_ext _ (fun l => l)) by apply common_label_same.
  now rewrite map_id.
Qed.

Lemma key_dtypes_same existing_df delta_df primary_key :
  incl primary_key (columns existing_df) -> same_dtypes existing_df delta_df ->
  key_dtypes existing_df primary_key = key_dtypes delta_df primary_key.
Proof.
  intros Hincl Hsame. unfold key_dtypes. apply map_ext_in.
  intros c Hc. apply Hsame, Hincl, Hc.
Qed.

Lemma same_dtypesb_sound existing_df delta_df :
  same_dtypesb existing_df delta_df = true -> same_dtypes existing_df delta_df.
Proof.
  unfold same_dtypesb, same_dtypes. rewrite forallb_forall.
  intros H c Hc. specialize (H c Hc).
  destruct (DType_eq_dec _ _); [assumption|discriminate].
Qed.

Ltac dtypes_ok := apply same_dtypesb_sound; reflexivity.

(** The frame [merged_df] returns when both [set_index] calls pass. *)
Lemma merged_df_joint existing_df delta_df primary_key :
  primary_key <> [] ->
  incl primary_key (columns existing_df) -> incl primary_key (columns delta_df) ->
  NoDup (key_tuples existing_df primary_key) ->
  NoDup (key_tuples delta_df primary_key) ->
  merged_df existing_df delta_df primary_key
  = inr (joint_frame existing_df delta_df primary_key).
Proof.
  intros Hne Hpe Hpd NDe NDd. unfold merged_df.
  rewrite (set_index_unique _ _ Hne Hpe NDe), (set_index_unique _ _ Hne Hpd NDd).
  unfold pandas.concat, pandas.getitem_mask, pandas.reset_index_drop, joint_frame,
    joint_columns.
  cbn [columns dtypes index values level_dtypes labels
       pandas.union_columns flat_map map pandas.schema].
  rewrite app_nil_l.
  rewrite (filter_all_true _ (fun c => negb (pandas.mem_column c []))) by reflexivity.
  rewrite !app_nil_r, select_not_isin. reflexivity.
Qed.

(** ** The quality gate: what a pass means *)

Lemma gate_checks existing_df delta_df primary_key :
  _is_data_quality_sufficient existing_df delta_df primary_key = true
  <-> pandas.sum (pandas.duplicated
        (pandas.DataFrame_columns existing_df primary_key)) = 0
      /\ pandas.sum (pandas.duplicated
            (pandas.DataFrame_columns delta_df primary_key)) = 0
      /\ negb (pandas.shape1 existing_df =? pandas.shape1 delta_df)
         || negb (List.length (pandas.intersection (columns existing_df)
                                                   (columns delta_df))
                  =? pandas.shape1 existing_df) = false.
Proof.
  unfold _is_data_quality_sufficient, error_messages.
  rewrite <- !Nat.eqb_eq.
  destruct (pandas.sum (pandas.duplicated
              (pandas.DataFrame_columns existing_df primary_key)) =? 0);
  destruct (pandas.sum (pandas.duplicated
              (pandas.DataFrame_columns delta_df primary_key)) =? 0);
  destruct (negb (pandas.shape1 existing_df =? pandas.shape1 delta_df)
            || negb (List.length (pandas.intersection (columns existing_df)
                                                      (columns delta_df))
                     =? pandas.shape1 existing_df));
  simpl; intuition congruence.
Qed.

Lemma gate_pass existing_df delta_df primary_key :
  NoDup (columns existing_df) -> NoDup (columns delta_df) -> primary_key <> [] ->
  _is_data_quality_sufficient existing_df delta_df primary_key = true
  <-> NoDup (key_tuples existing_df primary_key)
      /\ NoDup (key_tuples delta_df primary_key)
      /\ same_column_set existing_df delta_df.
Proof.
  intros NDe NDd Hne.
  rewrite gate_checks, !sum_duplicated_key_tuples, column_check by assumption.
  reflexivity.
Qed.

(** ** The override: keys and rows *)

Section KeyedLists.
Variables (A B : Type) (f : A -> B).
Hypothesis B_eq_dec : forall x y : B, {x = y} + {x <> y}.

Lemma filter_key_unique l x :
  NoDup (map f l) -> In x l ->
  filter (fun y => if B_eq_dec (f y) (f x) then true else false) l = [x].
Proof.
  induction l as [|a l IH]; simpl; intros ND Hx; [contradiction|].
  inversion ND as [|? ? Hnin ND']; subst.
  destruct Hx as [->|Hx].
  - destruct (B_eq_dec (f x) (f x)) as [_|Hne]; [|contradiction]. f_equal.
    apply filter_all_false. intros y Hy.
    destruct (B_eq_dec (f y) (f x)) as [E|_]; [|reflexivity].
    exfalso. apply Hnin. rewrite <- E. now apply in_map.
  - destruct (B_eq_dec (f a) (f x)) as [E|_]; [|now apply IH].
    exfalso. apply Hnin. rewrite E. now apply in_map.
Qed.
End KeyedLists.

Lemma key_tuples_override existing_df delta_df primary_key :
  incl primary_key (columns existing_df) ->
  key_tuples (override existing_df delta_df primary_key) primary_key
  = filter (fun k => negb (pandas.mem_label k (key_tuples delta_df primary_key)))
           (key_tuples existing_df primary_key)
    ++ key_tuples delta_df primary_key.
Proof.
  intros Hincl. unfold key_tuples at 1, override. cbn [values].
  rewrite map_app. f_equal.
  - unfold key_tuples at 2. rewrite filter_map_swap. reflexivity.
  - rewrite map_map. apply map_ext. intros r. unfold key_tuple. cbn [columns].
    now apply key_tuple_reindex_row.
Qed.

Lemma NoDup_key_tuples_override existing_df delta_df primary_key :
  incl primary_key (columns existing_df) ->
  NoDup (key_tuples existing_df primary_key) ->
  NoDup (key_tuples delta_df primary_key) ->
  NoDup (key_tuples (override existing_df delta_df primary_key) primary_key).
Proof.
  intros Hincl NDe NDd. rewrite key_tuples_override by assumption.
  apply NoDup_app; [now apply NoDup_filter|assumption|].
  intros k Hk. apply filter_In in Hk. destruct Hk as [_ Hk].
  now apply negb_true_iff, mem_label_not_In in Hk.
Qed.

Lemma In_key_tuples_override existing_df delta_df primary_key k :
  incl primary_key (columns existing_df) ->
  In k (key_tuples (override existing_df delta_df primary_key) primary_key)
  <-> In k (key_tuples existing_df primary_key)
      \/ In k (key_tuples delta_df primary_key).
Proof.
  intros Hincl. rewrite key_tuples_override, in_app_iff, filter_In by assumption.
  rewrite negb_true_iff, mem_label_not_In.
  destruct (in_dec Row_eq_dec k (key_tuples delta_df primary_key)); tauto.
Qed.

Lemma well_formed_override existing_df delta_df primary_key :
  well_formed existing_df -> well_formed (override existing_df delta_df primary_key).
Proof.
  intros [ND Hrows]. split; [exact ND|].
  unfold override. cbn [values columns]. apply Forall_app. split.
  - rewrite Forall_forall in *. intros r Hr. apply Hrows.
    unfold kept_rows in Hr. apply filter_In in Hr. tauto.
  - apply Forall_forall. intros r Hr. apply in_map_iff in Hr.
    destruct Hr as [r0 [<- _]]. unfold pandas.reindex_row. apply length_map.
Qed.

(** An aligned delta row holds, under every column name, the cell of
    the delta row it comes from. *)
Lemma same_cells_reindex_row existing_df delta_df primary_key rd :
  (forall c, In c (columns existing_df) <-> In c (columns delta_df)) ->
  same_cells (override existing_df delta_df primary_key)
             (pandas.reindex_row (columns delta_df) (columns existing_df) rd)
             delta_df rd.
Proof.
  intros Hset c. cbn [columns override].
  destruct (in_dec string_dec c (columns existing_df)) as [Hin|Hnin].
  - now apply cell_reindex_row.
  - rewrite !cell_absent; [reflexivity| |assumption].
    intros H. apply Hnin, Hset, H.
Qed.

(** Under a passed gate the frame [merged_df] returns is the joint
    frame, whatever the dtypes. *)
Lemma gate_pass_joint existing_df delta_df primary_key :
  well_formed existing_df -> well_formed delta_df ->
  primary_key <> [] -> incl primary_key (columns existing_df) ->
  _is_data_quality_sufficient existing_df delta_df primary_key = true ->
  NoDup (key_tuples existing_df primary_key)
  /\ NoDup (key_tuples delta_df primary_key)
  /\ (forall c, In c (columns existing_df) <-> In c (columns delta_df))
  /\ merged_df existing_df delta_df primary_key
     = inr (joint_frame existing_df delta_df primary_key).
Proof.
  intros We Wd Hne Hpe Hgate.
  apply gate_pass in Hgate; [|apply We|apply Wd|assumption].
  destruct Hgate as (NDe & NDd & _ & Hset).
  repeat split; try assumption; try apply Hset.
  apply merged_df_joint; try assumption.
  intros c Hc. apply Hset, Hpe, Hc.
Qed.

(** With the same labels and the same dtypes on both sides, the joint
    frame is the key-based override. *)
Lemma joint_frame_override existing_df delta_df primary_key :
  well_formed existing_df ->
  (forall c, In c (columns existing_df) <-> In c (columns delta_df)) ->
  incl primary_key (columns existing_df) ->
  same_dtypes existing_df delta_df ->
  joint_frame existing_df delta_df primary_key
  = override existing_df delta_df primary_key.
Proof.
  intros [NDc Hrows] Hset Hpe Hsame.
  assert (forall c, In c (columns existing_df) ->
            pandas.joint_dtype [pandas.schema existing_df; pandas.schema delta_df] c
            = pandas.column_dtype existing_df c) as Hts.
  { intros c Hc. rewrite joint_dtype_both; [|assumption|now apply Hset].
    rewrite <- (Hsame c Hc). apply promote_same. }
  unfold joint_frame, override, joint_columns.
  rewrite filter_absent_columns by (intros c Hc; now apply Hset).
  rewrite app_nil_r.
  rewrite (unmatched_rows_same_dtypes _ _ _ (key_dtypes_same _ _ _ Hpe Hsame)).
  assert (map (pandas.align_row existing_df (columns existing_df)
                 (pandas.joint_dtype [pandas.schema existing_df;
                                      pandas.schema delta_df]))
              (kept_rows existing_df delta_df primary_key)
          = kept_rows existing_df delta_df primary_key) as ->.
  { rewrite <- map_id. apply map_ext_in. intros r Hr.
    transitivity (pandas.reindex_row (columns existing_df) (columns existing_df) r).
    - unfold pandas.align_row, pandas.reindex_row. apply map_ext_in.
      intros c Hc. rewrite (Hts c Hc). apply cast_same.
    - apply reindex_row_same; [assumption|].
      rewrite Forall_forall in Hrows. apply Hrows.
      unfold kept_rows in Hr. apply filter_In in Hr. tauto. }
  assert (map (pandas.align_row delta_df (columns existing_df)
                 (pandas.joint_dtype [pandas.schema existing_df;
                                      pandas.schema delta_df]))
              (values delta_df)
          = map (pandas.reindex_row (columns delta_df) (columns existing_df))
                (values delta_df)) as ->.
  { apply map_ext. intros r. unfold pandas.align_row, pandas.reindex_row.
    apply map_ext_in. intros c Hc.
    rewrite (Hts c Hc), (Hsame c Hc). apply cast_same. }
  f_equal. apply map_ext_in. exact Hts.
Qed.

(** What a pass of the gate gives the merge of two frames of the same
    dtypes. *)
Lemma gate_pass_merge existing_df delta_df primary_key :
  well_formed existing_df -> well_formed delta_df ->
  primary_key <> [] -> incl primary_key (columns existing_df) ->
  same_dtypes existing_df delta_df ->
  _is_data_quality_sufficient existing_df delta_df primary_key = true ->
  NoDup (key_tuples existing_df primary_key)
  /\ NoDup (key_tuples delta_df primary_key)
  /\ (forall c, In c (columns existing_df) <-> In c (columns delta_df))
  /\ merged_df existing_df delta_df primary_key
     = inr (override existing_df delta_df primary_key).
Proof.
  intros We Wd Hne Hpe Hsame Hgate.
  destruct (gate_pass_joint _ _ _ We Wd Hne Hpe Hgate) as (NDe & NDd & Hset & Hm).
  repeat split; try assumption; try apply Hset.
  rewrite Hm. f_equal. now apply joint_frame_override.
Qed.

Lemma column_dtype_override existing_df delta_df primary_key c :
  In c (columns existing_df) ->
  pandas.column_dtype (override existing_df delta_df primary_key) c
  = pandas.column_dtype existing_df c.
Proof.
  intros Hc. unfold pandas.column_dtype at 1. cbn [columns dtypes override].
  now apply dtype_of_map.
Qed.

Lemma same_dtypes_override existing_df delta_df primary_key :
  same_dtypes existing_df delta_df ->
  same_dtypes (override existing_df delta_df primary_key) delta_df.
Proof.
  intros Hsame c Hc. cbn [columns override] in Hc.
  rewrite column_dtype_override by assumption. now apply Hsame.
Qed.



Lemma set_index_not_duplicate_error df primary_key dups :
  pandas.sum (pandas.duplicated (pandas.DataFrame_columns df primary_key)) = 0 ->
  pandas.set_index df primary_key <> inl (ValueError_duplicate_keys dups).
Proof.
  intros Hsum. unfold pandas.set_index.
  destruct (filter _ primary_key); [|discriminate].
  destruct primary_key as [|k ks] eqn:E; [discriminate|].
  apply sum_duplicated_key_tuples in Hsum; [|discriminate].
  apply is_unique_NoDup in Hsum.
  change (map (pandas.reindex_row (columns df) (k :: ks)) (values df))
    with (key_tuples df (k :: ks)).
  cbv zeta. rewrite Hsum. discriminate.
Qed.

Lemma messages_distinct existing_df delta_df :
  msg_existing_duplicates <> msg_delta_duplicates
  /\ msg_existing_duplicates <> msg_column_mismatch existing_df delta_df
  /\ msg_delta_duplicates <> msg_column_mismatch existing_df delta_df.
Proof. repeat split; intros H; unfold msg_column_mismatch in H; simpl in H; discriminate H. Qed.

(** ** Properties of the quality gate and of the merge *)

(** C2. On frames with distinct column names and a non-empty primary key
    whose columns both frames have, the gate answers true exactly when
    neither frame repeats a primary-key tuple and the two frames have
    the same set of column names (same number, same members, any order). *)
Theorem quality_gate_verdict existing_df delta_df primary_key :
  NoDup (columns existing_df) -> NoDup (columns delta_df) ->
  primary_key <> [] ->
  incl primary_key (columns existing_df) -> incl primary_key (columns delta_df) ->
  _is_data_quality_sufficient existing_df delta_df primary_key = true
  <-> NoDup (key_tuples existing_df primary_key)
      /\ NoDup (key_tuples delta_df primary_key)
      /\ same_column_set existing_df delta_df.
Proof. intros NDe NDd Hne _ _. now apply gate_pass. Qed.

(** C1, as the code has it.  When the gate passes and every column has
    the same dtype in the existing table and in the delta batch, the
    merge succeeds; every row of the merged frame carries a key of the
    existing table or of the delta batch, and for each such key the
    merged frame has exactly one row: a row holding the cells of the
    delta row of that key under every column when the delta has the key,
    and otherwise the row of the existing table, unchanged. *)
Theorem merged_table_one_row_per_key existing_df delta_df primary_key :
  well_formed existing_df -> well_formed delta_df ->
  primary_key <> [] -> incl primary_key (columns existing_df) ->
  same_dtypes existing_df delta_df ->
  _is_data_quality_sufficient existing_df delta_df primary_key = true ->
  exists merged,
    merged_df existing_df delta_df primary_key = inr merged
    /\ (forall r, In r (values merged) ->
          In (key_tuple merged primary_key r) (key_tuples existing_df primary_key)
          \/ In (key_tuple merged primary_key r) (key_tuples delta_df primary_key))
    /\ forall k,
         In k (key_tuples existing_df primary_key)
         \/ In k (key_tuples delta_df primary_key) ->
         exists r,
           rows_with_key merged primary_key k = [r]
           /\ (In k (key_tuples delta_df primary_key) ->
                 exists rd,
                   In rd (values delta_df)
                   /\ key_tuple delta_df primary_key rd = k
                   /\ same_cells merged r delta_df rd)
           /\ (~ In k (key_tuples delta_df primary_key) ->
                 In r (values existing_df)
                 /\ key_tuple existing_df primary_key r = k
                 /\ same_cells merged r existing_df r).
Proof.
  intros We Wd Hne Hpe Hsame Hgate.
  destruct (gate_pass_merge _ _ _ We Wd Hne Hpe Hsame Hgate)
    as (NDe & NDd & Hset & Hm).
  assert (incl primary_key (columns delta_df)) as Hpd
    by (intros c Hc; apply Hset, Hpe, Hc).
  exists (override existing_df delta_df primary_key). split; [exact Hm|]. split.
  - intros r Hr. apply In_key_tuples_override; [assumption|].
    unfold key_tuples. now apply in_map.
  - intros k Hk. apply In_key_tuples_override in Hk; [|assumption].
    unfold key_tuples in Hk. apply in_map_iff in Hk. destruct Hk as [r [Hkr Hr]].
    exists r. split; [|split].
    + unfold rows_with_key. rewrite <- Hkr.
      apply (filter_key_unique _ _
               (key_tuple (override existing_df delta_df primary_key) primary_key)
               Row_eq_dec); [|assumption].
      now apply NoDup_key_tuples_override.
    + intros Hkd. cbn [values override] in Hr. apply in_app_or in Hr.
      destruct Hr as [Hr|Hr].
      * exfalso. unfold kept_rows in Hr. apply filter_In in Hr. destruct Hr as [_ Hn].
        apply negb_true_iff, mem_label_not_In in Hn. apply Hn.
        rewrite <- Hkr in Hkd. exact Hkd.
      * apply in_map_iff in Hr. destruct Hr as [rd [<- Hrd]].
        exists rd. split; [assumption|]. split.
        -- rewrite <- Hkr. unfold key_tuple. cbn [columns override].
           symmetry. now apply key_tuple_reindex_row.
        -- now apply same_cells_reindex_row.
    + intros Hnkd. cbn [values override] in Hr. apply in_app_or in Hr.
      destruct Hr as [Hr|Hr].
      * unfold kept_rows in Hr. apply filter_In in Hr. destruct Hr as [Hr _].
        split; [assumption|]. split; [exact Hkr|]. intros c. reflexivity.
      * exfalso. apply Hnkd. apply in_map_iff in Hr. destruct Hr as [rd [<- Hrd]].
        rewrite <- Hkr. unfold key_tuple. cbn [columns override].
        rewrite key_tuple_reindex_row by assumption.
        apply (in_map (key_tuple delta_df primary_key)), Hrd.
Qed.

(** C1, as stated, fails.  Two runs in which the gate passes.  In the
    first the delta brings a float64 column where the table has an
    integer one: the row of key 1, which the delta does not touch, comes
    out with [9007199254740993] stored as the float
    [9007199254740992.0], so it is no row of the existing table.  In the
    second the key columns are signed and unsigned: [isin] compares
    them as float64, takes the two keys for one, and the existing row is
    dropped, so that its key has no row in the merged frame. *)
Lemma merge_retypes_and_drops_rows :
  (_is_data_quality_sufficient Scenario.big_existing Scenario.nan_delta ["id"] = true
   /\ ~ In [VInt 1] (key_tuples Scenario.nan_delta ["id"])
   /\ exists merged,
        merged_df Scenario.big_existing Scenario.nan_delta ["id"] = inr merged
        /\ dtypes merged = [Int64; Float64]
        /\ rows_with_key merged ["id"] [VInt 1] = [[VInt 1; VInt 9007199254740992]]
        /\ ~ In [VInt 1; VInt 9007199254740992] (values Scenario.big_existing))
  /\ (_is_data_quality_sufficient Scenario.wide_existing Scenario.unsigned_delta ["id"]
      = true
      /\ In [VInt 9007199254740993] (key_tuples Scenario.wide_existing ["id"])
      /\ exists merged,
           merged_df Scenario.wide_existing Scenario.unsigned_delta ["id"]
           = inr merged
           /\ rows_with_key merged ["id"] [VInt 9007199254740993] = []).
Proof.
  split.
  - split; [reflexivity|]. split.
    + cbv. intros [H|[]]. discriminate H.
    + eexists. split; [reflexivity|]. split; [reflexivity|].
      split; [reflexivity|].
      cbv. intros [H|[]]. discriminate H.
  - split; [reflexivity|]. split; [cbv; auto|].
    eexists. split; reflexivity.
Qed.



(** C8. When the gate passes, the merged frame has the column names of
    the existing table, no more and no fewer, and the primary-key
    columns are among them. *)
Theorem merged_table_columns existing_df delta_df primary_key :
  well_formed existing_df -> well_formed delta_df ->
  primary_key <> [] -> incl primary_key (columns existing_df) ->
  _is_data_quality_sufficient existing_df delta_df primary_key = true ->
  exists merged,
    merged_df existing_df delta_df primary_key = inr merged
    /\ same_column_set merged existing_df
    /\ columns merged = columns existing_df
    /\ incl primary_key (columns merged).
Proof.
  intros We Wd Hne Hpe Hgate.
  destruct (gate_pass_joint _ _ _ We Wd Hne Hpe Hgate) as (_ & _ & Hset & Hm).
  exists (joint_frame existing_df delta_df primary_key).
  assert (columns (joint_frame existing_df delta_df primary_key)
          = columns existing_df) as Hcols.
  { cbn [columns joint_frame]. unfold joint_columns.
    rewrite filter_absent_columns by (intros c Hc; now apply Hset).
    apply app_nil_r. }
  split; [exact Hm|]. rewrite Hcols.
  split; [|split; [reflexivity|exact Hpe]].
  unfold same_column_set. rewrite Hcols.
  split; [reflexivity|intros c; reflexivity].
Qed.

(** C9. When the gate answers true, neither [set_index] of
    [_update_existing_table] raises the duplicate-key error. *)
Theorem set_index_duplicate_error_unreachable existing_df delta_df primary_key :
  _is_data_quality_sufficient existing_df delta_df primary_key = true ->
  forall dups,
    pandas.set_index existing_df primary_key <> inl (ValueError_duplicate_keys dups)
    /\ pandas.set_index delta_df primary_key <> inl (ValueError_duplicate_keys dups).
Proof.
  intros Hgate dups. apply gate_checks in Hgate. destruct Hgate as (He & Hd & _).
  split; now apply set_index_not_duplicate_error.
Qed.

(** C7, as the code has it.  The gate returns its verdict only.  The
    list it builds holds the message of each check that fails, whatever
    the other checks find, and the verdict is true exactly when that
    list is empty. *)
Theorem quality_gate_messages existing_df delta_df primary_key :
  NoDup (columns existing_df) -> NoDup (columns delta_df) ->
  primary_key <> [] ->
  (In msg_existing_duplicates (error_messages existing_df delta_df primary_key)
   <-> ~ NoDup (key_tuples existing_df primary_key))
  /\ (In msg_delta_duplicates (error_messages existing_df delta_df primary_key)
      <-> ~ NoDup (key_tuples delta_df primary_key))
  /\ (In (msg_column_mismatch existing_df delta_df)
         (error_messages existing_df delta_df primary_key)
      <-> ~ same_column_set existing_df delta_df)
  /\ (_is_data_quality_sufficient existing_df delta_df primary_key = true
      <-> error_messages existing_df delta_df primary_key = []).
Proof.
  intros NDe NDd Hne.
  destruct (messages_distinct existing_df delta_df) as (D1 & D2 & D3).
  pose proof (sum_duplicated_key_tuples existing_df primary_key Hne) as He.
  pose proof (sum_duplicated_key_tuples delta_df primary_key Hne) as Hd.
  pose proof (column_check existing_df delta_df NDe NDd) as Hc.
  rewrite <- Nat.eqb_eq in He, Hd.
  unfold _is_data_quality_sufficient, error_messages.
  destruct (pandas.sum (pandas.duplicated
              (pandas.DataFrame_columns existing_df primary_key)) =? 0);
  destruct (pandas.sum (pandas.duplicated
              (pandas.DataFrame_columns delta_df primary_key)) =? 0);
  destruct (negb (pandas.shape1 existing_df =? pandas.shape1 delta_df)
            || negb (List.length (pandas.intersection (columns existing_df)
                                                      (columns delta_df))
                     =? pandas.shape1 existing_df));
  simpl; intuition congruence.
Qed.

(** C7, as stated, fails: the value returned is the same on two calls
    that found different violations, so it does not carry the list. *)
Lemma gate_verdict_without_messages :
  _is_data_quality_sufficient Scenario.existing_dup Scenario.delta_new ["id"]
  = _is_data_quality_sufficient Scenario.existing Scenario.delta_extra ["id"]
  /\ error_messages Scenario.existing_dup Scenario.delta_new ["id"]
     <> error_messages Scenario.existing Scenario.delta_extra ["id"].
Proof. split; [reflexivity|]. vm_compute. discriminate. Qed.

(** ** Orchestration *)

Section Orchestration.
Context {Durable Outside Response : Type}.
Variable wr : Services Durable Outside Response.
Variables (delta_df : DataFrame) (database table : string)
          (primary_key : list string).
Variable w : World Durable Outside.

Lemma messages_differ : msg_not_found database table <> msg_unknown_state.
Proof. unfold msg_not_found, msg_unknown_state. simpl. discriminate. Qed.

(** The publishing half of [_update_existing_table]: the frame
    handed to the writer is [merged_df], in overwrite mode, at the
    location the catalog gives. *)
Lemma run_update_existing_table existing_df merged path o1 response d2 o2 :
  merged_df existing_df delta_df primary_key = inr merged ->
  get_table_location wr database table (durable w) (outside w) = (inr path, o1) ->
  to_parquet wr merged path true database table "overwrite" (durable w) o1
  = (inr response, d2, o2) ->
  _update_existing_table wr existing_df delta_df primary_key database table w
  = (inr tt,
     {| durable := d2; outside := o2;
        trace := trace w
                 ++ [Call_get_table_location database table;
                     Call_to_parquet merged path true database table "overwrite";
                     Log INFO (msg_upserted wr database table response)] |}).
Proof.
  intros Hm Hloc Hw.
  unfold _update_existing_table, bind, lift, catalog_get_table_location, lookup,
    s3_to_parquet, logger_info, emit.
  rewrite Hm, Hloc. cbn [durable outside trace]. rewrite Hw.
  cbn [durable outside trace]. now rewrite <- !app_assoc.
Qed.

(** The run when the table is found and the gate fails. *)
Lemma run_gate_fails o1 existing_df o2 :
  does_table_exist wr database table (durable w) (outside w) = (inr true, o1) ->
  read_parquet_table wr database table (durable w) o1 = (inr existing_df, o2) ->
  _is_data_quality_sufficient existing_df delta_df primary_key = false ->
  merge_upsert_table wr delta_df database table primary_key w
  = (inr tt,
     {| durable := durable w; outside := o2;
        trace := trace w ++ [Call_does_table_exist database table;
                             Call_read_parquet_table database table] |}).
Proof.
  intros H1 H2 Hgate.
  unfold merge_upsert_table, bind, catalog_does_table_exist,
    s3_read_parquet_table, lookup, ret.
  rewrite H1. cbn [durable outside trace]. rewrite H2, Hgate.
  now rewrite <- app_assoc.
Qed.

(** The run when the first existence query answers false. *)
Lemma run_not_found o1 r2 o2 :
  does_table_exist wr database table (durable w) (outside w) = (inr false, o1) ->
  does_table_exist wr database table (durable w) o1 = (r2, o2) ->
  merge_upsert_table wr delta_df database table primary_key w
  = (match r2 with inl e => inl e | inr _ => inr tt end,
     {| durable := durable w; outside := o2;
        trace := trace w
                 ++ [Call_does_table_exist database table;
                     Call_does_table_exist database table]
                 ++ match r2 with
                    | inr false => [Log ERROR (msg_not_found database table)]
                    | inr true => [Log ERROR msg_unknown_state]
                    | inl _ => []
                    end |}).
Proof.
  intros H1 H2.
  unfold merge_upsert_table, bind, catalog_does_table_exist, lookup,
    logger_exception, emit.
  rewrite H1. cbn [durable outside trace]. rewrite H2.
  destruct r2 as [e|[|]]; cbn [negb durable outside trace];
    now rewrite <- ?app_assoc.
Qed.

(** C3. When the table exists and the gate returns false, the call
    returns without a write and without a location lookup: the only
    events are the existence query and the read, and the durable state
    is the one it started from. *)
Theorem gate_failure_touches_nothing o1 existing_df o2 :
  does_table_exist wr database table (durable w) (outside w) = (inr true, o1) ->
  read_parquet_table wr database table (durable w) o1 = (inr existing_df, o2) ->
  _is_data_quality_sufficient existing_df delta_df primary_key = false ->
  exists w' events,
    merge_upsert_table wr delta_df database table primary_key w = (inr tt, w')
    /\ durable w' = durable w
    /\ trace w' = trace w ++ events
    /\ forall ev, In ev events ->
         is_write ev = false /\ is_location_lookup ev = false.
Proof.
  intros H1 H2 Hgate. eexists. eexists.
  split; [apply (run_gate_fails o1 existing_df o2 H1 H2 Hgate)|].
  split; [reflexivity|]. split; [reflexivity|].
  intros ev [<-|[<-|[]]]; split; reflexivity.
Qed.

(** C5. When the catalog answers that the table is absent, the call
    queries existence once more, logs one record at level ERROR (the
    not-found message when the second answer is again false) and
    returns: no read, no lookup of the location, no write, and the
    durable state is the one it started from. *)
Theorem table_absent_stops o1 found_again o2 :
  does_table_exist wr database table (durable w) (outside w) = (inr false, o1) ->
  does_table_exist wr database table (durable w) o1 = (inr found_again, o2) ->
  exists w' msg,
    merge_upsert_table wr delta_df database table primary_key w = (inr tt, w')
    /\ durable w' = durable w
    /\ trace w' = trace w ++ [Call_does_table_exist database table;
                              Call_does_table_exist database table;
                              Log ERROR msg]
    /\ (found_again = false -> msg = msg_not_found database table).
Proof.
  intros H1 H2. rewrite (run_not_found o1 _ o2 H1 H2).
  destruct found_again; eexists; eexists;
    (split; [reflexivity|]); (split; [reflexivity|]); (split; [reflexivity|]).
  - discriminate.
  - reflexivity.
Qed.

(** C10. When the first existence query answers false, a second one
    is made; the not-found record is logged exactly when the second
    answers false, the unknown-state record exactly when it answers
    true, so never when the two answers are equal; and whatever the
    second query does, nothing is read, looked up or written and the
    durable state is the one the call started from. *)
Theorem second_existence_query o1 r2 o2 :
  does_table_exist wr database table (durable w) (outside w) = (inr false, o1) ->
  does_table_exist wr database table (durable w) o1 = (r2, o2) ->
  exists res w' logs,
    merge_upsert_table wr delta_df database table primary_key w = (res, w')
    /\ durable w' = durable w
    /\ trace w' = trace w ++ [Call_does_table_exist database table;
                              Call_does_table_exist database table] ++ logs
    /\ (In (Log ERROR (msg_not_found database table)) logs <-> r2 = inr false)
    /\ (In (Log ERROR msg_unknown_state) logs <-> r2 = inr true)
    /\ (r2 = inr false -> ~ In (Log ERROR msg_unknown_state) logs)
    /\ forall ev, In ev logs ->
         is_read ev = false /\ is_location_lookup ev = false
         /\ is_write ev = false.
Proof.
  intros H1 H2. rewrite (run_not_found o1 r2 o2 H1 H2).
  pose proof messages_differ as Hd.
  eexists. eexists. eexists.
  split; [reflexivity|]. split; [reflexivity|]. split; [reflexivity|].
  destruct r2 as [e|[|]]; cbn [In].
  - split; [split; [tauto|discriminate]|].
    split; [split; [tauto|discriminate]|].
    split; [discriminate|]. intros ev [].
  - split; [split; [intros [H|[]]; inversion H; congruence|discriminate]|].
    split; [split; [reflexivity|tauto]|].
    split; [discriminate|].
    intros ev [<-|[]]. repeat split.
  - split; [split; [reflexivity|tauto]|].
    split; [split; [intros [H|[]]; inversion H; congruence|discriminate]|].
    split; [intros _ [H|[]]; inversion H; congruence|].
    intros ev [<-|[]]. repeat split.
Qed.

End Orchestration.

(** ** The scenarios of the specification, run *)

Example basic_upsert :
  merged_df Scenario.existing Scenario.delta ["id"] =
  inr (Scenario.frame ["id"; "v"] [Int64; Object]
         [[VInt 1; VStr "a"]; [VInt 2; VStr "B"]; [VInt 3; VStr "c"]]).
Proof. reflexivity. Qed.

Example basic_upsert_swapped :
  merged_df Scenario.existing Scenario.delta_swapped ["id"] =
  inr (Scenario.frame ["id"; "v"] [Int64; Object]
         [[VInt 1; VStr "a"]; [VInt 2; VStr "B"]; [VInt 3; VStr "c"]]).
Proof. reflexivity. Qed.

Example gate_rejects_duplicates :
  _is_data_quality_sufficient Scenario.existing_dup Scenario.delta_new ["id"] = false.
Proof. reflexivity. Qed.

Example gate_rejects_column_mismatch :
  _is_data_quality_sufficient Scenario.existing Scenario.delta_extra ["id"] = false.
Proof. reflexivity. Qed.

Example gate_accepts :
  _is_data_quality_sufficient Scenario.existing Scenario.delta_swapped ["id"] = true.
Proof. reflexivity. Qed.

Example gate_accepts_empty_delta :
  _is_data_quality_sufficient Scenario.existing
    (Scenario.frame ["id"; "v"] [Int64; Object] []) ["id"]
  = true.
Proof. reflexivity. Qed.

Example set_index_rejects_duplicates :
  pandas.set_index Scenario.existing_dup ["id"]
  = inl (ValueError_duplicate_keys [[VInt 1]]).
Proof. reflexivity. Qed.

Example round_float64_ties_to_even :
  pandas.round_float64 9007199254740993 = 9007199254740992%Z
  /\ pandas.round_float64 9007199254740995 = 9007199254740996%Z
  /\ pandas.round_float64 (-9007199254740993) = (-9007199254740992)%Z
  /\ pandas.round_float64 18446744073709551615 = 18446744073709551616%Z
  /\ pandas.round_float64 9007199254740992 = 9007199254740992%Z.
Proof. repeat split. Qed.

Example concat_retypes_integer_column :
  merged_df Scenario.big_existing Scenario.nan_delta ["id"]
  = inr (Scenario.frame ["id"; "v"] [Int64; Float64]
           [[VInt 1; VInt 9007199254740992]; [VInt 2; VNaN]]).
Proof. reflexivity. Qed.

Example isin_compares_as_float64 :
  merged_df Scenario.wide_existing Scenario.unsigned_delta ["id"]
  = inr (Scenario.frame ["id"] [Float64] [[VInt 9007199254740992]]).
Proof. reflexivity. Qed.

Example duplicate_labels_first_occurrence :
  pandas.duplicate_labels
    [[VInt 1]; [VInt 2]; [VInt 1]; [VInt 2]; [VInt 1]]
  = [[VInt 1]; [VInt 2]].
Proof. reflexivity. Qed.

Example upsert_publishes :
  merge_upsert_table Fake.wr Scenario.delta "db" "t" ["id"]
    (Fake.world (Fake.store Scenario.existing) [])
  = (inr tt,
     let merged :=
       Scenario.frame ["id"; "v"] [Int64; Object]
         [[VInt 1; VStr "a"]; [VInt 2; VStr "B"]; [VInt 3; VStr "c"]] in
     {| durable := Fake.store merged;
        outside := [];
        trace := [Call_does_table_exist "db" "t";
                  Call_read_parquet_table "db" "t";
                  Call_get_table_location "db" "t";
                  Call_to_parquet merged "s3://bucket/t" true "db" "t" "overwrite";
                  Log INFO "Successfully Upserted db.t and got response as rrr"] |}).
Proof. reflexivity. Qed.

(** C4. The failing run: the stored table repeats the key 1, the gate
    answers false, and the call returns normally having logged nothing;
    the messages the gate collected are dropped. *)
Theorem gate_failure_logs_nothing :
  error_messages Scenario.existing_dup Scenario.delta_new ["id"]
  = [msg_existing_duplicates]
  /\ merge_upsert_table Fake.wr Scenario.delta_new "db" "t" ["id"]
       (Fake.world (Fake.store Scenario.existing_dup) [])
     = (inr tt,
        {| durable := Fake.store Scenario.existing_dup;
           outside := [];
           trace := [Call_does_table_exist "db" "t";
                     Call_read_parquet_table "db" "t"] |})
  /\ filter is_log
       (trace (snd (merge_upsert_table Fake.wr Scenario.delta_new "db" "t" ["id"]
                      (Fake.world (Fake.store Scenario.existing_dup) []))))
     = [].
Proof. repeat split. Qed.

(** ** The theorems at work on the scenarios *)

Lemma quality_gate_verdict_witness :
  _is_data_quality_sufficient Scenario.existing Scenario.delta_swapped ["id"] = true
  <-> NoDup (key_tuples Scenario.existing ["id"])
      /\ NoDup (key_tuples Scenario.delta_swapped ["id"])
      /\ same_column_set Scenario.existing Scenario.delta_swapped.
Proof.
  apply quality_gate_verdict.
  - apply distinct_NoDup. reflexivity.
  - apply distinct_NoDup. reflexivity.
  - discriminate.
  - columns_present.
  - columns_present.
Defined.

Lemma quality_gate_messages_witness :
  (In msg_existing_duplicates
      (error_messages Scenario.existing_dup Scenario.delta_extra ["id"])
   <-> ~ NoDup (key_tuples Scenario.existing_dup ["id"]))
  /\ (In msg_delta_duplicates
         (error_messages Scenario.existing_dup Scenario.delta_extra ["id"])
      <-> ~ NoDup (key_tuples Scenario.delta_extra ["id"]))
  /\ (In (msg_column_mismatch Scenario.existing_dup Scenario.delta_extra)
         (error_messages Scenario.existing_dup Scenario.delta_extra ["id"])
      <-> ~ same_column_set Scenario.existing_dup Scenario.delta_extra)
  /\ (_is_data_quality_sufficient Scenario.existing_dup Scenario.delta_extra ["id"]
      = true
      <-> error_messages Scenario.existing_dup Scenario.delta_extra ["id"] = []).
Proof.
  apply quality_gate_messages.
  - apply distinct_NoDup. reflexivity.
  - apply distinct_NoDup. reflexivity.
  - discriminate.
Defined.

Lemma merged_table_one_row_per_key_witness :
  exists merged,
    merged_df Scenario.existing Scenario.delta_swapped ["id"] = inr merged
    /\ (forall r, In r (values merged) ->
          In (key_tuple merged ["id"] r) (key_tuples Scenario.existing ["id"])
          \/ In (key_tuple merged ["id"] r) (key_tuples Scenario.delta_swapped ["id"]))
    /\ forall k,
         In k (key_tuples Scenario.existing ["id"])
         \/ In k (key_tuples Scenario.delta_swapped ["id"]) ->
         exists r,
           rows_with_key merged ["id"] k = [r]
           /\ (In k (key_tuples Scenario.delta_swapped ["id"]) ->
                 exists rd,
                   In rd (values Scenario.delta_swapped)
                   /\ key_tuple Scenario.delta_swapped ["id"] rd = k
                   /\ same_cells merged r Scenario.delta_swapped rd)
           /\ (~ In k (key_tuples Scenario.delta_swapped ["id"]) ->
                 In r (values Scenario.existing)
                 /\ key_tuple Scenario.existing ["id"] r = k
                 /\ same_cells merged r Scenario.existing r).
Proof.
  apply merged_table_one_row_per_key.
  - frame_ok.
  - frame_ok.
  - discriminate.
  - columns_present.
  - dtypes_ok.
  - reflexivity.
Defined.


Lemma merged_table_columns_witness :
  exists merged,
    merged_df Scenario.existing Scenario.delta_swapped ["id"] = inr merged
    /\ same_column_set merged Scenario.existing
    /\ columns merged = columns Scenario.existing
    /\ incl ["id"] (columns merged).
Proof.
  apply merged_table_columns.
  - frame_ok.
  - frame_ok.
  - discriminate.
  - columns_present.
  - reflexivity.
Defined.

Lemma set_index_duplicate_error_unreachable_witness :
  pandas.set_index Scenario.existing ["id"]
  <> inl (ValueError_duplicate_keys [[VInt 2]])
  /\ pandas.set_index Scenario.delta ["id"]
     <> inl (ValueError_duplicate_keys [[VInt 2]]).
Proof.
  apply (set_index_duplicate_error_unreachable Scenario.existing Scenario.delta ["id"]).
  reflexivity.
Defined.

Lemma gate_failure_touches_nothing_witness :
  exists w' events,
    merge_upsert_table Fake.wr Scenario.delta_new "db" "t" ["id"]
      (Fake.world (Fake.store Scenario.existing_dup) []) = (inr tt, w')
    /\ durable w' = Fake.store Scenario.existing_dup
    /\ trace w' = [] ++ events
    /\ forall ev, In ev events ->
         is_write ev = false /\ is_location_lookup ev = false.
Proof.
  apply (gate_failure_touches_nothing Fake.wr Scenario.delta_new "db" "t" ["id"]
           (Fake.world (Fake.store Scenario.existing_dup) [])
           [] Scenario.existing_dup []); reflexivity.
Defined.

Lemma table_absent_stops_witness :
  exists w' msg,
    merge_upsert_table Fake.wr Scenario.delta "db" "t" ["id"] (Fake.world [] [])
    = (inr tt, w')
    /\ durable w' = []
    /\ trace w' = [] ++ [Call_does_table_exist "db" "t";
                         Call_does_table_exist "db" "t";
                         Log ERROR msg]
    /\ (false = false -> msg = msg_not_found "db" "t").
Proof.
  apply (table_absent_stops Fake.wr Scenario.delta "db" "t" ["id"]
           (Fake.world [] []) [] false []); reflexivity.
Defined.

Lemma second_existence_query_witness :
  exists res w' logs,
    merge_upsert_table Fake.wr Scenario.delta "db" "t" ["id"]
      (Fake.world [] [false; true]) = (res, w')
    /\ durable w' = []
    /\ trace w' = [] ++ [Call_does_table_exist "db" "t";
                         Call_does_table_exist "db" "t"] ++ logs
    /\ (In (Log ERROR (msg_not_found "db" "t")) logs
        <-> @inr Exception bool true = inr false)
    /\ (In (Log ERROR msg_unknown_state) logs
        <-> @inr Exception bool true = inr true)
    /\ (@inr Exception bool true = inr false
        -> ~ In (Log ERROR msg_unknown_state) logs)
    /\ forall ev, In ev logs ->
         is_read ev = false /\ is_location_lookup ev = false
         /\ is_write ev = false.
Proof.
  apply (second_existence_query Fake.wr Scenario.delta "db" "t" ["id"]
           (Fake.world [] [false; true]) [true] (inr true) []); reflexivity.
Defined.


(** ** The merge on its own: when it succeeds and what it returns *)

Lemma filter_nil_all_false (A : Type) (f : A -> bool) (l : list A) :
  filter f l = [] -> forall x, In x l -> f x = false.
Proof.
  intros Hnil x Hx. destruct (f x) eqn:E; [|reflexivity].
  assert (In x (filter f l)) as Hin by (apply filter_In; auto).
  rewrite Hnil in Hin. contradiction.
Qed.

Lemma set_index_inr_inv df primary_key df' :
  pandas.set_index df primary_key = inr df' ->
  primary_key <> []
  /\ incl primary_key (columns df)
  /\ NoDup (key_tuples df primary_key)
  /\ df' = {| columns := columns df;
              dtypes := dtypes df;
              index := {| level_dtypes := key_dtypes df primary_key;
                          labels := key_tuples df primary_key |};
              values := values df |}.
Proof.
  unfold pandas.set_index.
  destruct (filter _ primary_key) as [|k0 ks0] eqn:Hmiss; [|discriminate].
  destruct primary_key as [|k ks] eqn:Epk; [discriminate|]. cbv zeta.
  change (map (pandas.reindex_row (columns df) (k :: ks)) (values df))
    with (key_tuples df (k :: ks)).
  destruct (pandas.is_unique (key_tuples df (k :: ks))) eqn:Hu; [|discriminate].
  intros H. injection H as <-. split; [discriminate|]. split; [|split].
  - intros c Hc. apply mem_column_In, negb_false_iff.
    exact (filter_nil_all_false _ _ _ Hmiss c Hc).
  - now apply is_unique_NoDup.
  - reflexivity.
Qed.

Lemma set_index_missing_keys df primary_key :
  missing_keys df primary_key <> [] ->
  pandas.set_index df primary_key = inl (KeyError (missing_keys df primary_key)).
Proof.
  unfold pandas.set_index, missing_keys.
  destruct (filter _ primary_key); [contradiction|reflexivity].
Qed.

Lemma missing_keys_nil df primary_key :
  missing_keys df primary_key = [] <-> incl primary_key (columns df).
Proof.
  unfold missing_keys. split.
  - intros H c Hc. apply mem_column_In, negb_false_iff.
    exact (filter_nil_all_false _ _ _ H c Hc).
  - intros H. now apply filter_absent_columns.
Qed.

Lemma merge_success_conditions existing_df delta_df primary_key :
  (exists merged, merged_df existing_df delta_df primary_key = inr merged) ->
  primary_key <> []
  /\ incl primary_key (columns existing_df)
  /\ incl primary_key (columns delta_df)
  /\ NoDup (key_tuples existing_df primary_key)
  /\ NoDup (key_tuples delta_df primary_key).
Proof.
  intros [merged H]. unfold merged_df in H.
  destruct (pandas.set_index existing_df primary_key) as [e|e'] eqn:He;
    [discriminate|].
  destruct (pandas.set_index delta_df primary_key) as [e|d'] eqn:Hd;
    [discriminate|].
  apply set_index_inr_inv in He. apply set_index_inr_inv in Hd. tauto.
Qed.

(** X1. On frames with distinct column names, [merged_df] returns a
    frame exactly when the primary key is not empty, each of its columns
    is a column of both frames, and neither frame repeats a primary-key
    tuple; the column check of the gate plays no part in it. *)
Theorem merge_succeeds_iff existing_df delta_df primary_key :
  NoDup (columns existing_df) -> NoDup (columns delta_df) ->
  (exists merged, merged_df existing_df delta_df primary_key = inr merged)
  <-> primary_key <> []
      /\ incl primary_key (columns existing_df)
      /\ incl primary_key (columns delta_df)
      /\ NoDup (key_tuples existing_df primary_key)
      /\ NoDup (key_tuples delta_df primary_key).
Proof.
  intros _ _. split; [apply merge_success_conditions|].
  intros (Hne & Hpe & Hpd & NDe & NDd). eexists.
  now apply merged_df_joint.
Qed.

Lemma merged_df_inv existing_df delta_df primary_key merged :
  merged_df existing_df delta_df primary_key = inr merged ->
  merged = joint_frame existing_df delta_df primary_key.
Proof.
  intros H.
  assert (exists m, merged_df existing_df delta_df primary_key = inr m) as Hex
    by (now exists merged).
  apply merge_success_conditions in Hex.
  destruct Hex as (Hne & Hpe & Hpd & NDe & NDd).
  rewrite (merged_df_joint _ _ _ Hne Hpe Hpd NDe NDd) in H.
  now injection H as <-.
Qed.


(** X3. On frames with distinct column names and key columns of the
    same dtypes, the merged frame has one row per delta row plus one per
    existing row whose key the delta lacks: its row count and the number
    of existing rows the delta replaces add up to the two inputs'
    counts. *)
Theorem merge_row_count existing_df delta_df primary_key merged :
  NoDup (columns existing_df) -> NoDup (columns delta_df) ->
  key_dtypes existing_df primary_key = key_dtypes delta_df primary_key ->
  merged_df existing_df delta_df primary_key = inr merged ->
  List.length (values merged)
  + List.length
      (filter (fun r => pandas.mem_label (key_tuple existing_df primary_key r)
                                         (key_tuples delta_df primary_key))
              (values existing_df))
  = List.length (values existing_df) + List.length (values delta_df).
Proof.
  intros _ _ Hkeys H. apply merged_df_inv in H. subst merged.
  cbn [values joint_frame]. rewrite length_app, !length_map.
  rewrite (unmatched_rows_same_dtypes _ _ _ Hkeys). unfold kept_rows.
  pose proof (filter_length
                (fun r => pandas.mem_label (key_tuple existing_df primary_key r)
                                           (key_tuples delta_df primary_key))
                (values existing_df)) as Hlen.
  lia.
Qed.

(** X4. A delta batch without rows that passes the gate and has the
    dtypes of the table leaves the table as it was: same columns, same
    dtypes, same rows in the same order. *)
Theorem empty_delta_keeps_table existing_df delta_df primary_key :
  well_formed existing_df -> well_formed delta_df ->
  primary_key <> [] -> incl primary_key (columns existing_df) ->
  same_dtypes existing_df delta_df ->
  _is_data_quality_sufficient existing_df delta_df primary_key = true ->
  values delta_df = [] ->
  exists merged,
    merged_df existing_df delta_df primary_key = inr merged
    /\ columns merged = columns existing_df
    /\ values merged = values existing_df
    /\ forall c, In c (columns existing_df) ->
                 pandas.column_dtype merged c = pandas.column_dtype existing_df c.
Proof.
  intros We Wd Hne Hpe Hsame Hgate Hempty.
  destruct (gate_pass_merge _ _ _ We Wd Hne Hpe Hsame Hgate) as (_ & _ & _ & Hm).
  eexists. split; [exact Hm|]. split; [reflexivity|]. split.
  - cbn [values override]. unfold kept_rows, key_tuples. rewrite Hempty. cbn [map].
    rewrite filter_all_true by reflexivity. apply app_nil_r.
  - intros c Hc. now apply column_dtype_override.
Qed.

(** X5. When the gate passes, the dtypes agree and no key of the delta
    is a key of the table, the merge is an append: all existing rows,
    then the delta rows aligned on the table's columns. *)
Theorem fresh_keys_append existing_df delta_df primary_key :
  well_formed existing_df -> well_formed delta_df ->
  primary_key <> [] -> incl primary_key (columns existing_df) ->
  same_dtypes existing_df delta_df ->
  _is_data_quality_sufficient existing_df delta_df primary_key = true ->
  (forall k, In k (key_tuples delta_df primary_key) ->
             ~ In k (key_tuples existing_df primary_key)) ->
  exists merged,
    merged_df existing_df delta_df primary_key = inr merged
    /\ values merged
       = values existing_df
         ++ map (pandas.reindex_row (columns delta_df) (columns existing_df))
                (values delta_df).
Proof.
  intros We Wd Hne Hpe Hsame Hgate Hfresh.
  destruct (gate_pass_merge _ _ _ We Wd Hne Hpe Hsame Hgate) as (_ & _ & _ & Hm).
  eexists. split; [exact Hm|]. cbn [values override]. f_equal.
  unfold kept_rows. apply filter_all_true. intros r Hr.
  apply negb_true_iff, mem_label_not_In. intros Hin.
  apply (Hfresh _ Hin). unfold key_tuples. now apply in_map.
Qed.

(** X6. When the gate passes, the dtypes agree and every key of the
    table is a key of the delta, nothing of the table survives: the
    merged rows are the delta rows aligned on the table's columns. *)
Theorem covering_delta_replaces existing_df delta_df primary_key :
  well_formed existing_df -> well_formed delta_df ->
  primary_key <> [] -> incl primary_key (columns existing_df) ->
  same_dtypes existing_df delta_df ->
  _is_data_quality_sufficient existing_df delta_df primary_key = true ->
  (forall k, In k (key_tuples existing_df primary_key) ->
             In k (key_tuples delta_df primary_key)) ->
  exists merged,
    merged_df existing_df delta_df primary_key = inr merged
    /\ values merged
       = map (pandas.reindex_row (columns delta_df) (columns existing_df))
             (values delta_df).
Proof.
  intros We Wd Hne Hpe Hsame Hgate Hall.
  destruct (gate_pass_merge _ _ _ We Wd Hne Hpe Hsame Hgate) as (_ & _ & _ & Hm).
  eexists. split; [exact Hm|]. cbn [values override].
  unfold kept_rows. rewrite filter_all_false; [reflexivity|].
  intros r Hr. apply negb_false_iff, mem_label_In, Hall.
  unfold key_tuples. now apply in_map.
Qed.

(** X7. The merge keeps the table fit for the next upsert: when the gate
    passes and the dtypes agree, the merged frame is well formed, has
    the dtypes of the table, repeats no primary-key tuple, and passes
    the gate against the same delta. *)
Theorem merged_table_passes_gate existing_df delta_df primary_key :
  well_formed existing_df -> well_formed delta_df ->
  primary_key <> [] -> incl primary_key (columns existing_df) ->
  same_dtypes existing_df delta_df ->
  _is_data_quality_sufficient existing_df delta_df primary_key = true ->
  exists merged,
    merged_df existing_df delta_df primary_key = inr merged
    /\ well_formed merged
    /\ same_dtypes merged delta_df
    /\ NoDup (key_tuples merged primary_key)
    /\ _is_data_quality_sufficient merged delta_df primary_key = true.
Proof.
  intros We Wd Hne Hpe Hsame Hgate.
  destruct (gate_pass_merge _ _ _ We Wd Hne Hpe Hsame Hgate)
    as (NDe & NDd & _ & Hm).
  exists (override existing_df delta_df primary_key).
  split; [exact Hm|]. split; [now apply well_formed_override|].
  split; [now apply same_dtypes_override|].
  assert (NoDup (key_tuples (override existing_df delta_df primary_key) primary_key))
    as NDm by now apply NoDup_key_tuples_override.
  split; [exact NDm|].
  apply gate_pass; [apply We|apply Wd|assumption|].
  split; [exact NDm|]. split; [exact NDd|].
  apply gate_pass in Hgate; [|apply We|apply Wd|assumption].
  exact (proj2 (proj2 Hgate)).
Qed.

(** X8. The verdict of the gate does not depend on which frame is called
    existing and which delta, although the column check is written from
    the side of the existing table. *)
Theorem quality_gate_symmetric existing_df delta_df primary_key :
  NoDup (columns existing_df) -> NoDup (columns delta_df) ->
  _is_data_quality_sufficient existing_df delta_df primary_key
  = _is_data_quality_sufficient delta_df existing_df primary_key.
Proof.
  intros NDe NDd. apply Bool.eq_iff_eq_true.
  rewrite !gate_checks, (column_check _ _ NDe NDd), (column_check _ _ NDd NDe).
  unfold same_column_set. split.
  - intros (He & Hd & Hlen & Hset). repeat split; auto; apply Hset.
  - intros (Hd & He & Hlen & Hset). repeat split; auto; apply Hset.
Qed.

(** ** The order of the delta's columns *)

Lemma mem_column_ext a b c :
  (forall x, In x a <-> In x b) -> pandas.mem_column c a = pandas.mem_column c b.
Proof.
  intros H. apply Bool.eq_iff_eq_true. rewrite !mem_column_In. apply H.
Qed.

Lemma cell_reindex_same_set cols new_cols r c :
  (forall x, In x new_cols <-> In x cols) ->
  pandas.cell new_cols (pandas.reindex_row cols new_cols r) c = pandas.cell cols r c.
Proof.
  intros Hset. destruct (in_dec string_dec c new_cols) as [Hin|Hnin].
  - now apply cell_reindex_row.
  - rewrite !cell_absent; [reflexivity| |assumption].
    intros H. apply Hnin, Hset, H.
Qed.

Lemma reindex_row_twice cols mid new_cols r :
  (forall x, In x mid <-> In x cols) ->
  pandas.reindex_row mid new_cols (pandas.reindex_row cols mid r)
  = pandas.reindex_row cols new_cols r.
Proof.
  intros Hset. unfold pandas.reindex_row at 1 3. apply map_ext. intros c.
  now apply cell_reindex_same_set.
Qed.

Lemma key_tuples_reordered df cs primary_key :
  (forall x, In x cs <-> In x (columns df)) ->
  key_tuples (pandas.DataFrame_columns df cs) primary_key = key_tuples df primary_key.
Proof.
  intros Hset. unfold key_tuples, key_tuple. cbn [columns values pandas.DataFrame_columns].
  rewrite map_map. apply map_ext. intros r.
  exact (reindex_row_twice (columns df) cs primary_key r Hset).
Qed.

Lemma column_dtype_reordered df cs c :
  (forall x, In x cs <-> In x (columns df)) ->
  pandas.column_dtype (pandas.DataFrame_columns df cs) c = pandas.column_dtype df c.
Proof.
  intros Hset. unfold pandas.column_dtype at 1.
  cbn [columns dtypes pandas.DataFrame_columns].
  destruct (in_dec string_dec c cs) as [Hin|Hnin].
  - now apply dtype_of_map.
  - rewrite dtype_of_absent by assumption.
    unfold pandas.column_dtype. rewrite dtype_of_absent; [reflexivity|].
    intros H. apply Hnin, Hset, H.
Qed.

Lemma key_dtypes_reordered df cs primary_key :
  (forall x, In x cs <-> In x (columns df)) ->
  key_dtypes (pandas.DataFrame_columns df cs) primary_key = key_dtypes df primary_key.
Proof.
  intros Hset. unfold key_dtypes. apply map_ext. intros c.
  now apply column_dtype_reordered.
Qed.

Lemma set_index_reordered df cs primary_key :
  (forall x, In x cs <-> In x (columns df)) ->
  pandas.set_index (pandas.DataFrame_columns df cs) primary_key
  = match pandas.set_index df primary_key with
    | inl e => inl e
    | inr df' =>
        inr {| columns := cs;
               dtypes := map (pandas.column_dtype df) cs;
               index := index df';
               values := map (pandas.reindex_row (columns df) cs) (values df') |}
    end.
Proof.
  intros Hset. unfold pandas.set_index.
  cbn [columns dtypes pandas.DataFrame_columns].
  rewrite (filter_ext _ (fun k => negb (pandas.mem_column k (columns df)))).
  2:{ intros k. f_equal. now apply mem_column_ext. }
  destruct (filter _ primary_key); [|reflexivity].
  destruct primary_key as [|k ks]; [reflexivity|]. cbv zeta.
  change (map (pandas.reindex_row cs (k :: ks))
              (values (pandas.DataFrame_columns df cs)))
    with (key_tuples (pandas.DataFrame_columns df cs) (k :: ks)).
  change (map (pandas.reindex_row (columns df) (k :: ks)) (values df))
    with (key_tuples df (k :: ks)).
  change (map (pandas.column_dtype (pandas.DataFrame_columns df cs)) (k :: ks))
    with (key_dtypes (pandas.DataFrame_columns df cs) (k :: ks)).
  rewrite (key_tuples_reordered _ _ _ Hset), (key_dtypes_reordered _ _ _ Hset).
  destruct (pandas.is_unique (key_tuples df (k :: ks))); reflexivity.
Qed.

Lemma joint_dtype_reordered existing_df delta_df cs c :
  (forall x, In x cs <-> In x (columns delta_df)) ->
  pandas.joint_dtype [pandas.schema existing_df;
                      pandas.schema (pandas.DataFrame_columns delta_df cs)] c
  = pandas.joint_dtype [pandas.schema existing_df; pandas.schema delta_df] c.
Proof.
  intros Hset. unfold pandas.joint_dtype, pandas.schema.
  cbn [filter forallb fst snd columns dtypes pandas.DataFrame_columns].
  rewrite (mem_column_ext cs (columns delta_df) c Hset).
  pose proof (column_dtype_reordered delta_df cs c Hset) as Hdt.
  unfold pandas.column_dtype in Hdt.
  cbn [columns dtypes pandas.DataFrame_columns] in Hdt.
  destruct (pandas.mem_column c (columns existing_df));
    destruct (pandas.mem_column c (columns delta_df));
    cbn [fold_left fst snd andb]; rewrite ?Hdt; reflexivity.
Qed.

(** X9. The verdict of the gate does not depend on the order in which
    the delta batch lists its columns. *)
Theorem quality_gate_ignores_column_order existing_df delta_df cs primary_key :
  NoDup cs -> NoDup (columns delta_df) ->
  (forall c, In c cs <-> In c (columns delta_df)) ->
  _is_data_quality_sufficient existing_df (pandas.DataFrame_columns delta_df cs)
                              primary_key
  = _is_data_quality_sufficient existing_df delta_df primary_key.
Proof.
  intros NDcs NDd Hset.
  assert (pandas.DataFrame_columns (pandas.DataFrame_columns delta_df cs) primary_key
          = pandas.DataFrame_columns delta_df primary_key) as Hkeys.
  { unfold pandas.DataFrame_columns at 1 3.
    cbn [columns index values pandas.DataFrame_columns]. f_equal.
    - apply map_ext. intros c. now apply column_dtype_reordered.
    - rewrite map_map. apply map_ext. intros r. now apply reindex_row_twice. }
  assert (List.length cs = List.length (columns delta_df)) as Hlen
    by (apply Permutation_length, NoDup_Permutation; assumption).
  unfold _is_data_quality_sufficient, error_messages.
  rewrite Hkeys. unfold pandas.shape1, pandas.intersection.
  cbn [columns pandas.DataFrame_columns]. rewrite Hlen.
  rewrite (filter_ext _ (fun c => pandas.mem_column c (columns delta_df))).
  2:{ intros c. now apply mem_column_ext. }
  destruct (negb (pandas.sum _ =? 0)); destruct (negb (pandas.sum _ =? 0));
    destruct (negb _ || negb _); reflexivity.
Qed.

(** [merged_df] in one equation: the exception of the first
    [set_index] that raises, else the joint frame. *)
Lemma merged_df_eq existing_df delta_df primary_key :
  merged_df existing_df delta_df primary_key
  = match pandas.set_index existing_df primary_key with
    | inl e => inl e
    | inr _ =>
        match pandas.set_index delta_df primary_key with
        | inl e => inl e
        | inr _ => inr (joint_frame existing_df delta_df primary_key)
        end
    end.
Proof.
  destruct (pandas.set_index existing_df primary_key) as [e|e1] eqn:He.
  - unfold merged_df. now rewrite He.
  - destruct (pandas.set_index delta_df primary_key) as [e|d1] eqn:Hd.
    + unfold merged_df. now rewrite He, Hd.
    + apply set_index_inr_inv in He. apply set_index_inr_inv in Hd.
      apply merged_df_joint; tauto.
Qed.

Lemma unmatched_rows_reordered existing_df delta_df cs primary_key :
  (forall x, In x cs <-> In x (columns delta_df)) ->
  unmatched_rows existing_df (pandas.DataFrame_columns delta_df cs) primary_key
  = unmatched_rows existing_df delta_df primary_key.
Proof.
  intros Hset. unfold unmatched_rows.
  now rewrite (key_dtypes_reordered _ _ _ Hset), (key_tuples_reordered _ _ _ Hset).
Qed.

Lemma joint_frame_reordered existing_df delta_df cs primary_key :
  (forall x, In x cs <-> In x (columns delta_df)) ->
  incl (columns delta_df) (columns existing_df) ->
  joint_frame existing_df (pandas.DataFrame_columns delta_df cs) primary_key
  = joint_frame existing_df delta_df primary_key.
Proof.
  intros Hset Hincl. unfold joint_frame, joint_columns. cbv zeta.
  cbn [columns pandas.DataFrame_columns].
  rewrite (filter_absent_columns (columns existing_df) cs)
    by (intros c Hc; apply Hincl, Hset, Hc).
  rewrite (filter_absent_columns _ _ Hincl), !app_nil_r.
  rewrite (unmatched_rows_reordered _ _ _ _ Hset).
  set (ts' := pandas.joint_dtype
                [pandas.schema existing_df;
                 pandas.schema (pandas.DataFrame_columns delta_df cs)]).
  set (ts := pandas.joint_dtype
               [pandas.schema existing_df; pandas.schema delta_df]).
  assert (forall c, ts' c = ts c) as Hts
    by (intros c; now apply joint_dtype_reordered).
  assert (map ts' (columns existing_df) = map ts (columns existing_df)) as ->
    by (apply map_ext, Hts).
  assert (map (pandas.align_row existing_df (columns existing_df) ts')
              (unmatched_rows existing_df delta_df primary_key)
          = map (pandas.align_row existing_df (columns existing_df) ts)
                (unmatched_rows existing_df delta_df primary_key)) as ->.
  { apply map_ext. intros r. unfold pandas.align_row. apply map_ext.
    intros c. now rewrite Hts. }
  assert (map (pandas.align_row (pandas.DataFrame_columns delta_df cs)
                 (columns existing_df) ts')
              (values (pandas.DataFrame_columns delta_df cs))
          = map (pandas.align_row delta_df (columns existing_df) ts)
                (values delta_df)) as ->.
  { cbn [values pandas.DataFrame_columns]. rewrite map_map. apply map_ext.
    intros r. unfold pandas.align_row. apply map_ext. intros c.
    rewrite Hts, (column_dtype_reordered _ _ _ Hset).
    cbn [columns pandas.DataFrame_columns].
    now rewrite (cell_reindex_same_set _ _ _ _ Hset). }
  reflexivity.
Qed.

(** X10. When the delta batch has no column the table lacks, the merge
    gives the same result, or raises the same exception, in whatever
    order the delta lists its columns. *)
Theorem merge_ignores_column_order existing_df delta_df cs primary_key :
  (forall c, In c cs <-> In c (columns delta_df)) ->
  incl (columns delta_df) (columns existing_df) ->
  merged_df existing_df (pandas.DataFrame_columns delta_df cs) primary_key
  = merged_df existing_df delta_df primary_key.
Proof.
  intros Hset Hincl. rewrite !merged_df_eq, (set_index_reordered _ _ _ Hset).
  destruct (pandas.set_index existing_df primary_key); [reflexivity|].
  destruct (pandas.set_index delta_df primary_key); [reflexivity|].
  f_equal. now apply joint_frame_reordered.
Qed.

(** ** Runs of [merge_upsert_table] *)

Section Runs.
Context {Durable Outside Response : Type}.
Variable wr : Services Durable Outside Response.
Variables (delta_df : DataFrame) (database table : string)
          (primary_key : list string).
Variable w : World Durable Outside.

(** The run up to the merge, when the table is found, read, and the
    gate passes. *)
Lemma run_gate_passes o1 existing_df o2 :
  does_table_exist wr database table (durable w) (outside w) = (inr true, o1) ->
  read_parquet_table wr database table (durable w) o1 = (inr existing_df, o2) ->
  _is_data_quality_sufficient existing_df delta_df primary_key = true ->
  merge_upsert_table wr delta_df database table primary_key w
  = _update_existing_table wr existing_df delta_df primary_key database table
      {| durable := durable w; outside := o2;
         trace := trace w ++ [Call_does_table_exist database table;
                              Call_read_parquet_table database table] |}.
Proof.
  intros H1 H2 Hgate.
  unfold merge_upsert_table, bind at 1, catalog_does_table_exist, lookup at 1.
  rewrite H1. cbn [durable outside trace].
  unfold bind at 1, s3_read_parquet_table, lookup at 1.
  cbn [durable outside trace]. rewrite H2, Hgate.
  now rewrite <- app_assoc.
Qed.

(** X11. The publishing run.  When the table is found and read, the gate
    passes on frames of the same dtypes, the location is resolved and
    the writer succeeds, the call makes exactly one write: the key-based
    override of the table read, in overwrite mode, at the location the
    catalog gave; it then logs the success at level INFO, and the
    durable state is the one the writer returned. *)
Theorem upsert_publishes_override o1 existing_df o2 path o3 response d4 o4 :
  does_table_exist wr database table (durable w) (outside w) = (inr true, o1) ->
  read_parquet_table wr database table (durable w) o1 = (inr existing_df, o2) ->
  well_formed existing_df -> well_formed delta_df ->
  primary_key <> [] -> incl primary_key (columns existing_df) ->
  same_dtypes existing_df delta_df ->
  _is_data_quality_sufficient existing_df delta_df primary_key = true ->
  get_table_location wr database table (durable w) o2 = (inr path, o3) ->
  to_parquet wr (override existing_df delta_df primary_key) path true
             database table "overwrite" (durable w) o3
  = (inr response, d4, o4) ->
  merge_upsert_table wr delta_df database table primary_key w
  = (inr tt,
     {| durable := d4; outside := o4;
        trace := trace w
                 ++ [Call_does_table_exist database table;
                     Call_read_parquet_table database table;
                     Call_get_table_location database table;
                     Call_to_parquet (override existing_df delta_df primary_key)
                                     path true database table "overwrite";
                     Log INFO (msg_upserted wr database table response)] |}).
Proof.
  intros H1 H2 We Wd Hne Hpe Hsame Hgate Hloc Hw.
  rewrite (run_gate_passes o1 existing_df o2 H1 H2 Hgate).
  destruct (gate_pass_merge _ _ _ We Wd Hne Hpe Hsame Hgate) as (_ & _ & _ & Hm).
  rewrite (run_update_existing_table wr delta_df database table primary_key
             {| durable := durable w; outside := o2;
                trace := trace w ++ [Call_does_table_exist database table;
                                     Call_read_parquet_table database table] |}
             existing_df _ path o3 response d4 o4 Hm Hloc Hw).
  cbn [trace]. now rewrite <- app_assoc.
Qed.

(** X12. The gate does not look for the key columns.  When it passes
    although the table read lacks a column of the primary key, the call
    raises [KeyError] with the missing columns after the read, and
    neither looks up the location nor writes. *)
Theorem missing_key_column_raises o1 existing_df o2 :
  does_table_exist wr database table (durable w) (outside w) = (inr true, o1) ->
  read_parquet_table wr database table (durable w) o1 = (inr existing_df, o2) ->
  _is_data_quality_sufficient existing_df delta_df primary_key = true ->
  missing_keys existing_df primary_key <> [] ->
  merge_upsert_table wr delta_df database table primary_key w
  = (inl (KeyError (missing_keys existing_df primary_key)),
     {| durable := durable w; outside := o2;
        trace := trace w ++ [Call_does_table_exist database table;
                             Call_read_parquet_table database table] |}).
Proof.
  intros H1 H2 Hgate Hmiss.
  rewrite (run_gate_passes o1 existing_df o2 H1 H2 Hgate).
  unfold _update_existing_table, bind, lift, merged_df.
  now rewrite (set_index_missing_keys _ _ Hmiss).
Qed.

(** X13. An exception of the first existence query leaves the call
    unchanged: nothing else is called and nothing is logged. *)
Theorem catalog_failure_propagates e o1 :
  does_table_exist wr database table (durable w) (outside w) = (inl e, o1) ->
  merge_upsert_table wr delta_df database table primary_key w
  = (inl e,
     {| durable := durable w; outside := o1;
        trace := trace w ++ [Call_does_table_exist database table] |}).
Proof.
  intros H1. unfold merge_upsert_table, bind, catalog_does_table_exist, lookup.
  now rewrite H1.
Qed.

(** X14. An exception of the reader leaves the call unchanged, before
    the gate is run: no location lookup, no write, no log. *)
Theorem reader_failure_propagates o1 e o2 :
  does_table_exist wr database table (durable w) (outside w) = (inr true, o1) ->
  read_parquet_table wr database table (durable w) o1 = (inl e, o2) ->
  merge_upsert_table wr delta_df database table primary_key w
  = (inl e,
     {| durable := durable w; outside := o2;
        trace := trace w ++ [Call_does_table_exist database table;
                             Call_read_parquet_table database table] |}).
Proof.
  intros H1 H2.
  unfold merge_upsert_table, bind, catalog_does_table_exist,
    s3_read_parquet_table, lookup.
  rewrite H1. cbn [durable outside trace]. rewrite H2.
  now rewrite <- app_assoc.
Qed.

(** X15. When the location lookup raises after a passed gate, the
    exception leaves the call and the writer is not called. *)
Theorem location_failure_prevents_write o1 existing_df o2 merged e o3 :
  does_table_exist wr database table (durable w) (outside w) = (inr true, o1) ->
  read_parquet_table wr database table (durable w) o1 = (inr existing_df, o2) ->
  _is_data_quality_sufficient existing_df delta_df primary_key = true ->
  merged_df existing_df delta_df primary_key = inr merged ->
  get_table_location wr database table (durable w) o2 = (inl e, o3) ->
  merge_upsert_table wr delta_df database table primary_key w
  = (inl e,
     {| durable := durable w; outside := o3;
        trace := trace w ++ [Call_does_table_exist database table;
                             Call_read_parquet_table database table;
                             Call_get_table_location database table] |}).
Proof.
  intros H1 H2 Hgate Hm Hloc.
  rewrite (run_gate_passes o1 existing_df o2 H1 H2 Hgate).
  unfold _update_existing_table, bind, lift, catalog_get_table_location, lookup.
  rewrite Hm. cbn [durable outside trace]. rewrite Hloc.
  now rewrite <- app_assoc.
Qed.

(** X16. When the writer raises, the exception leaves the call, no
    success is logged, and the durable state is whatever the writer
    left behind: the call does not restore the table it read. *)
Theorem writer_failure_propagates o1 existing_df o2 merged path o3 e d4 o4 :
  does_table_exist wr database table (durable w) (outside w) = (inr true, o1) ->
  read_parquet_table wr database table (durable w) o1 = (inr existing_df, o2) ->
  _is_data_quality_sufficient existing_df delta_df primary_key = true ->
  merged_df existing_df delta_df primary_key = inr merged ->
  get_table_location wr database table (durable w) o2 = (inr path, o3) ->
  to_parquet wr merged path true database table "overwrite" (durable w) o3
  = (inl e, d4, o4) ->
  merge_upsert_table wr delta_df database table primary_key w
  = (inl e,
     {| durable := d4; outside := o4;
        trace := trace w ++ [Call_does_table_exist database table;
                             Call_read_parquet_table database table;
                             Call_get_table_location database table;
                             Call_to_parquet merged path true database table
                                             "overwrite"] |}).
Proof.
  intros H1 H2 Hgate Hm Hloc Hw.
  rewrite (run_gate_passes o1 existing_df o2 H1 H2 Hgate).
  unfold _update_existing_table, bind, lift, catalog_get_table_location, lookup,
    s3_to_parquet.
  rewrite Hm. cbn [durable outside trace]. rewrite Hloc.
  cbn [durable outside trace]. rewrite Hw.
  now rewrite <- !app_assoc.
Qed.

End Runs.

(** Closes one path of a run: the events are read off the trace, then
    each write among them is matched against the path taken. *)
Ltac write_case Hin :=
  inversion Hin; subst;
  do 4 (split; [reflexivity|]);
  do 3 eexists;
  repeat (split; [first [eassumption|reflexivity]|]);
  first [eassumption|reflexivity].

Ltac run_done :=
  eexists; split; [rewrite <- ?app_assoc; reflexivity|];
  cbn [filter is_write List.length app];
  split; [lia|]; split;
  [ intros ? ? ? ? ? ? Hin; cbn [In app] in Hin;
    repeat (destruct Hin as [Hin|Hin];
            [first [discriminate Hin|write_case Hin]|]);
    contradiction
  | intros Hnone; try reflexivity; discriminate Hnone ].

Section Safety.
Context {Durable Outside Response : Type}.
Variable wr : Services Durable Outside Response.
Variables (delta_df : DataFrame) (database table : string)
          (primary_key : list string).
Variable w : World Durable Outside.

(** X17. Whatever the services answer or raise, a call writes at most
    once; a frame it hands to the writer is the merge of the table the
    reader returned to this call, after the catalog answered that the
    table exists and the gate passed on that table, written for the
    table named in the call, as a dataset, in overwrite mode; and when
    it does not write, the durable state is the one it started from. *)
Theorem writes_only_gated_merges :
  exists events,
    trace (snd (merge_upsert_table wr delta_df database table primary_key w))
    = trace w ++ events
    /\ List.length (filter is_write events) <= 1
    /\ (forall df path dataset d t mode,
          In (Call_to_parquet df path dataset d t mode) events ->
          dataset = true /\ d = database /\ t = table /\ mode = "overwrite"
          /\ exists o1 existing_df o2,
               does_table_exist wr database table (durable w) (outside w)
               = (inr true, o1)
               /\ read_parquet_table wr database table (durable w) o1
                  = (inr existing_df, o2)
               /\ _is_data_quality_sufficient existing_df delta_df primary_key
                  = true
               /\ merged_df existing_df delta_df primary_key = inr df)
    /\ (filter is_write events = [] ->
        durable (snd (merge_upsert_table wr delta_df database table primary_key w))
        = durable w).
Proof.
  unfold merge_upsert_table, _update_existing_table, bind, lift, ret,
    catalog_does_table_exist, s3_read_parquet_table, catalog_get_table_location,
    s3_to_parquet, logger_info, logger_exception, emit, lookup.
  destruct (does_table_exist wr database table (durable w) (outside w))
    as [[e|[|]] o1] eqn:H1; cbn [durable outside trace snd negb].
  - run_done.
  - destruct (read_parquet_table wr database table (durable w) o1)
      as [[e|existing_df] o2] eqn:H2; cbn [durable outside trace snd];
      [run_done|].
    destruct (_is_data_quality_sufficient existing_df delta_df primary_key)
      eqn:Hgate; cbn [durable outside trace snd]; [|run_done].
    destruct (merged_df existing_df delta_df primary_key) as [e|merged] eqn:Hm;
      cbn [durable outside trace snd]; [run_done|].
    destruct (get_table_location wr database table (durable w) o2)
      as [[e|path] o3] eqn:Hloc; cbn [durable outside trace snd]; [run_done|].
    destruct (to_parquet wr merged path true database table "overwrite"
                (durable w) o3) as [[[e|response] d4] o4] eqn:Hw;
      cbn [durable outside trace snd]; run_done.
  - destruct (does_table_exist wr database table (durable w) o1)
      as [[e|[|]] o2] eqn:H2; cbn [durable outside trace snd negb]; run_done.
Qed.

End Safety.

(** X18. With an empty primary key the duplicate checks of the gate see
    frames without columns and find nothing, so the gate can pass; the
    merge then raises the no-levels [ValueError] of [set_index] after
    the read, and nothing is looked up or written. *)
Theorem empty_primary_key_raises (Durable Outside Response : Type)
    (wr : Services Durable Outside Response) (delta_df : DataFrame)
    (database table : string) (w : World Durable Outside)
    (o1 : Outside) (existing_df : DataFrame) (o2 : Outside) :
  does_table_exist wr database table (durable w) (outside w) = (inr true, o1) ->
  read_parquet_table wr database table (durable w) o1 = (inr existing_df, o2) ->
  _is_data_quality_sufficient existing_df delta_df [] = true ->
  merge_upsert_table wr delta_df database table [] w
  = (inl ValueError_no_levels,
     {| durable := durable w; outside := o2;
        trace := trace w ++ [Call_does_table_exist database table;
                             Call_read_parquet_table database table] |}).
Proof.
  intros H1 H2 Hgate.
  now rewrite (run_gate_passes wr delta_df database table [] w
                 o1 existing_df o2 H1 H2 Hgate).
Qed.

(** ** The further properties at work on the scenarios *)

Lemma merge_succeeds_iff_witness :
  (exists merged,
     merged_df Scenario.existing Scenario.delta_extra ["id"] = inr merged)
  <-> ["id"] <> []
      /\ incl ["id"] (columns Scenario.existing)
      /\ incl ["id"] (columns Scenario.delta_extra)
      /\ NoDup (key_tuples Scenario.existing ["id"])
      /\ NoDup (key_tuples Scenario.delta_extra ["id"]).
Proof.
  apply merge_succeeds_iff; apply distinct_NoDup; reflexivity.
Defined.


Lemma merge_row_count_witness :
  List.length (values (Scenario.frame ["id"; "v"] [Int64; Object]
                         [[VInt 1; VStr "a"]; [VInt 2; VStr "B"]; [VInt 3; VStr "c"]]))
  + List.length
      (filter (fun r => pandas.mem_label (key_tuple Scenario.existing ["id"] r)
                                         (key_tuples Scenario.delta ["id"]))
              (values Scenario.existing))
  = List.length (values Scenario.existing) + List.length (values Scenario.delta).
Proof.
  apply (merge_row_count Scenario.existing Scenario.delta ["id"]).
  - apply distinct_NoDup. reflexivity.
  - apply distinct_NoDup. reflexivity.
  - reflexivity.
  - reflexivity.
Defined.

Lemma empty_delta_keeps_table_witness :
  exists merged,
    merged_df Scenario.existing Scenario.delta_empty ["id"] = inr merged
    /\ columns merged = columns Scenario.existing
    /\ values merged = values Scenario.existing
    /\ forall c, In c (columns Scenario.existing) ->
                 pandas.column_dtype merged c
                 = pandas.column_dtype Scenario.existing c.
Proof.
  apply empty_delta_keeps_table.
  - frame_ok.
  - frame_ok.
  - discriminate.
  - columns_present.
  - dtypes_ok.
  - reflexivity.
  - reflexivity.
Defined.

Lemma fresh_keys_append_witness :
  exists merged,
    merged_df Scenario.existing Scenario.delta_fresh ["id"] = inr merged
    /\ values merged
       = values Scenario.existing
         ++ map (pandas.reindex_row (columns Scenario.delta_fresh)
                   (columns Scenario.existing))
                (values Scenario.delta_fresh).
Proof.
  apply fresh_keys_append.
  - frame_ok.
  - frame_ok.
  - discriminate.
  - columns_present.
  - dtypes_ok.
  - reflexivity.
  - intros k Hd He. cbv in Hd, He.
    destruct Hd as [<-|[<-|[]]]; destruct He as [He|[He|[]]]; discriminate He.
Defined.

Lemma covering_delta_replaces_witness :
  exists merged,
    merged_df Scenario.existing Scenario.delta_all ["id"] = inr merged
    /\ values merged
       = map (pandas.reindex_row (columns Scenario.delta_all)
                (columns Scenario.existing))
             (values Scenario.delta_all).
Proof.
  apply covering_delta_replaces.
  - frame_ok.
  - frame_ok.
  - discriminate.
  - columns_present.
  - dtypes_ok.
  - reflexivity.
  - intros k He. cbv in He. cbv. destruct He as [<-|[<-|[]]]; auto.
Defined.

Lemma merged_table_passes_gate_witness :
  exists merged,
    merged_df Scenario.existing Scenario.delta_swapped ["id"] = inr merged
    /\ well_formed merged
    /\ same_dtypes merged Scenario.delta_swapped
    /\ NoDup (key_tuples merged ["id"])
    /\ _is_data_quality_sufficient merged Scenario.delta_swapped ["id"] = true.
Proof.
  apply merged_table_passes_gate.
  - frame_ok.
  - frame_ok.
  - discriminate.
  - columns_present.
  - dtypes_ok.
  - reflexivity.
Defined.

Lemma quality_gate_symmetric_witness :
  _is_data_quality_sufficient Scenario.existing Scenario.delta_extra ["id"]
  = _is_data_quality_sufficient Scenario.delta_extra Scenario.existing ["id"].
Proof.
  apply quality_gate_symmetric; apply distinct_NoDup; reflexivity.
Defined.

Lemma quality_gate_ignores_column_order_witness :
  _is_data_quality_sufficient Scenario.existing
    (pandas.DataFrame_columns Scenario.delta ["v"; "id"]) ["id"]
  = _is_data_quality_sufficient Scenario.existing Scenario.delta ["id"].
Proof.
  apply quality_gate_ignores_column_order.
  - apply distinct_NoDup. reflexivity.
  - apply distinct_NoDup. reflexivity.
  - intros c. simpl. tauto.
Defined.

Lemma merge_ignores_column_order_witness :
  merged_df Scenario.existing
    (pandas.DataFrame_columns Scenario.delta ["v"; "id"]) ["id"]
  = merged_df Scenario.existing Scenario.delta ["id"].
Proof.
  apply merge_ignores_column_order.
  - intros c. simpl. tauto.
  - columns_present.
Defined.

Lemma upsert_publishes_override_witness :
  merge_upsert_table Fake.wr Scenario.delta "db" "t" ["id"]
    (Fake.world (Fake.store Scenario.existing) [])
  = (inr tt,
     {| durable := Fake.store (override Scenario.existing Scenario.delta ["id"]);
        outside := [];
        trace := []
                 ++ [Call_does_table_exist "db" "t";
                     Call_read_parquet_table "db" "t";
                     Call_get_table_location "db" "t";
                     Call_to_parquet (override Scenario.existing Scenario.delta ["id"])
                                     "s3://bucket/t" true "db" "t" "overwrite";
                     Log INFO (msg_upserted Fake.wr "db" "t" 3)] |}).
Proof.
  apply (upsert_publishes_override Fake.wr Scenario.delta "db" "t" ["id"]
           (Fake.world (Fake.store Scenario.existing) [])
           [] Scenario.existing [] "s3://bucket/t" [] 3
           (Fake.store (override Scenario.existing Scenario.delta ["id"])) []).
  - reflexivity.
  - reflexivity.
  - frame_ok.
  - frame_ok.
  - discriminate.
  - columns_present.
  - dtypes_ok.
  - reflexivity.
  - reflexivity.
  - reflexivity.
Defined.

Lemma missing_key_column_raises_witness :
  merge_upsert_table Fake.wr Scenario.delta_new "db" "t" ["k"]
    (Fake.world (Fake.store Scenario.existing_one) [])
  = (inl (KeyError (missing_keys Scenario.existing_one ["k"])),
     {| durable := Fake.store Scenario.existing_one;
        outside := [];
        trace := [] ++ [Call_does_table_exist "db" "t";
                        Call_read_parquet_table "db" "t"] |}).
Proof.
  apply (missing_key_column_raises Fake.wr Scenario.delta_new "db" "t" ["k"]
           (Fake.world (Fake.store Scenario.existing_one) [])
           [] Scenario.existing_one []).
  - reflexivity.
  - reflexivity.
  - reflexivity.
  - discriminate.
Defined.

Lemma catalog_failure_propagates_witness :
  merge_upsert_table Fake.wr_catalog_down Scenario.delta "db" "t" ["id"]
    (Fake.world (Fake.store Scenario.existing) [])
  = (inl (ServiceError "EndpointConnectionError"),
     {| durable := Fake.store Scenario.existing;
        outside := [];
        trace := [] ++ [Call_does_table_exist "db" "t"] |}).
Proof.
  apply (catalog_failure_propagates Fake.wr_catalog_down Scenario.delta "db" "t"
           ["id"] (Fake.world (Fake.store Scenario.existing) [])
           (ServiceError "EndpointConnectionError") []).
  reflexivity.
Defined.

Lemma reader_failure_propagates_witness :
  merge_upsert_table Fake.wr Scenario.delta "db" "t" ["id"] (Fake.world [] [true])
  = (inl (ServiceError "NoFilesFound"),
     {| durable := [];
        outside := [];
        trace := [] ++ [Call_does_table_exist "db" "t";
                        Call_read_parquet_table "db" "t"] |}).
Proof.
  apply (reader_failure_propagates Fake.wr Scenario.delta "db" "t" ["id"]
           (Fake.world [] [true]) [] (ServiceError "NoFilesFound") []);
    reflexivity.
Defined.

Lemma location_failure_prevents_write_witness :
  merge_upsert_table Fake.wr_location_down Scenario.delta "db" "t" ["id"]
    (Fake.world (Fake.store Scenario.existing) [])
  = (inl (ServiceError "AccessDenied"),
     {| durable := Fake.store Scenario.existing;
        outside := [];
        trace := [] ++ [Call_does_table_exist "db" "t";
                        Call_read_parquet_table "db" "t";
                        Call_get_table_location "db" "t"] |}).
Proof.
  apply (location_failure_prevents_write Fake.wr_location_down Scenario.delta
           "db" "t" ["id"] (Fake.world (Fake.store Scenario.existing) [])
           [] Scenario.existing []
           (override Scenario.existing Scenario.delta ["id"])
           (ServiceError "AccessDenied") []);
    reflexivity.
Defined.

Lemma writer_failure_propagates_witness :
  merge_upsert_table Fake.wr_writer_down Scenario.delta "db" "t" ["id"]
    (Fake.world (Fake.store Scenario.existing) [])
  = (inl (ServiceError "SlowDown"),
     {| durable := [];
        outside := [];
        trace := [] ++ [Call_does_table_exist "db" "t";
                        Call_read_parquet_table "db" "t";
                        Call_get_table_location "db" "t";
                        Call_to_parquet
                          (override Scenario.existing Scenario.delta ["id"])
                          "s3://bucket/t" true "db" "t" "overwrite"] |}).
Proof.
  apply (writer_failure_propagates Fake.wr_writer_down Scenario.delta
           "db" "t" ["id"] (Fake.world (Fake.store Scenario.existing) [])
           [] Scenario.existing []
           (override Scenario.existing Scenario.delta ["id"])
           "s3://bucket/t" [] (ServiceError "SlowDown") [] []);
    reflexivity.
Defined.

Lemma empty_primary_key_raises_witness :
  merge_upsert_table Fake.wr Scenario.delta_new "db" "t" []
    (Fake.world (Fake.store Scenario.existing_dup) [])
  = (inl ValueError_no_levels,
     {| durable := Fake.store Scenario.existing_dup;
        outside := [];
        trace := [] ++ [Call_does_table_exist "db" "t";
                        Call_read_parquet_table "db" "t"] |}).
Proof.
  apply (empty_primary_key_raises _ _ _ Fake.wr Scenario.delta_new "db" "t"
           (Fake.world (Fake.store Scenario.existing_dup) [])
           [] Scenario.existing_dup []);
    reflexivity.
Defined.
